(** * Hasjob: the [Filterset] model, its lookup query and its pre-save hook

    Embedding of [hasjob/models/filterset.py] and of the Alembic revision
    [80a7e6c31df_index_jobpost_datetime.py].

    - The database is a record of tables, each a list of rows.
    - The ORM's deferred query is a record ([Query]) that the generative
      methods [filter_], [join], [group_by] and [having] extend, exactly as
      [from_filters] chains them; [all] gives the rows the composed SELECT
      returns and [one_or_none] is the ORM's final step.
    - Python exceptions are the [Raise] case of [result]. *)

From Stdlib Require Import List ZArith String Ascii Bool Lia Permutation Sorted.
Import ListNotations.
Local Open Scope string_scope.
Local Open Scope list_scope.
Local Open Scope Z_scope.

(** ** Python values *)

Inductive exn :=
| ValueError (msg : string)
| MultipleResultsFound
| ProgrammingError (msg : string)
| DataError (msg : string).

Inductive result (A : Type) :=
| Ok (a : A)
| Raise (e : exn).
Arguments Ok {A} a.
Arguments Raise {A} e.

(** Python's truth value testing, as used by [if x:]. *)
Class Truthy (A : Type) := truthy : A -> bool.

#[global] Instance truthy_bool : Truthy bool := fun b => b.
#[global] Instance truthy_int : Truthy Z := fun z => negb (z =? 0).
#[global] Instance truthy_str : Truthy string :=
  fun s => match s with EmptyString => false | String _ _ => true end.
#[global] Instance truthy_list {A} : Truthy (list A) :=
  fun l => match l with [] => false | _ :: _ => true end.
(** [None] is falsy; a value that is present has its own truth value. *)
#[global] Instance truthy_option {A} `{Truthy A} : Truthy (option A) :=
  fun o => match o with None => false | Some a => truthy a end.

(** [if d.get(k): ... d[k] ...]: the value under the key when it is
    truthy. *)
Definition get_truthy {A} `{Truthy A} (o : option A) : option A :=
  match o with
  | Some a => if truthy a then Some a else None
  | None => None
  end.

(** [sorted] on integers (insertion into an ascending list). *)
Fixpoint insert_sorted (x : Z) (l : list Z) : list Z :=
  match l with
  | [] => [x]
  | y :: l' => if x <=? y then x :: l else y :: insert_sorted x l'
  end.

Definition sorted (l : list Z) : list Z := fold_right insert_sorted [] l.

(** ** Tables *)

(** The four many-to-many criteria. *)
Inductive kind := JobType | JobCategory | Tag | Domain.

Definition kind_eqb (a b : kind) : bool :=
  match a, b with
  | JobType, JobType | JobCategory, JobCategory | Tag, Tag | Domain, Domain => true
  | _, _ => false
  end.

(** Modelled from the spec: the [JobType], [JobCategory], [Tag] and [Domain]
    models are not part of the sources; the filter set only reads their
    primary key and their [name]. *)
Record Named := { ent_id : Z; ent_name : string }.

(** A row of [filterset_jobtype], [filterset_jobcategory], [filterset_tag] or
    [filterset_domain]; [created_at] plays no part in any query. *)
Record Assoc := { filterset_id : Z; entity_id : Z }.

(** *** The type [CHAR(3)] of [pay_currency]

    A stored value has exactly three characters. A shorter string is stored
    padded with blanks; a longer one is stored cut when what is cut is
    blank, and is refused otherwise. Comparing it with a string ignores the
    trailing blanks of both. *)
Record char3 := Char3 { ch1 : ascii; ch2 : ascii; ch3 : ascii }.

Definition char3_string (c : char3) : string :=
  String (ch1 c) (String (ch2 c) (String (ch3 c) "")).

Definition blank_char : ascii := " "%char.

Fixpoint all_blank (s : string) : bool :=
  match s with
  | EmptyString => true
  | String a s' => Ascii.eqb a blank_char && all_blank s'
  end.

(** Whether the string can be assigned to a [CHAR(3)] column. *)
Definition fits_char3 (s : string) : bool :=
  match s with
  | String _ (String _ (String _ rest)) => all_blank rest
  | _ => true
  end.

(** The value stored for a string that fits: its first three characters,
    blanks making up for the missing ones. *)
Definition char3_cut (s : string) : char3 :=
  match s with
  | EmptyString => Char3 blank_char blank_char blank_char
  | String a EmptyString => Char3 a blank_char blank_char
  | String a (String b EmptyString) => Char3 a b blank_char
  | String a (String b (String c _)) => Char3 a b c
  end.

(** The string without its trailing blanks. *)
Fixpoint rstrip (s : string) : string :=
  match s with
  | EmptyString => EmptyString
  | String a s' =>
      match rstrip s' with
      | EmptyString =>
          if Ascii.eqb a blank_char then EmptyString else String a EmptyString
      | String b r => String a (String b r)
      end
  end.

(** The stored value [c] and the string [s] are equal as [CHAR(3)]
    values. *)
Definition char3_is (c : char3) (s : string) : Prop :=
  rstrip (char3_string c) = rstrip s.

(** A row of the [filterset] table. [id] and [name] come from
    [BaseScopedNameMixin]. *)
Module Row.
Record t := {
  id : Z;
  board_id : Z;
  name : string;
  description : string;
  geonameids : list Z;
  remote_location : bool;
  pay_currency : option char3;
  pay_cash : option Z;
  equity : bool;
  keywords : string }.
End Row.

Record DB := {
  filterset_table : list Row.t;
  entity_table : kind -> list Named;
  assoc_table : kind -> list Assoc }.

(** ** The query builder *)

Inductive column :=
| ColBoardId | ColGeonameids | ColRemoteLocation | ColPayCurrency
| ColPayCash | ColEquity | ColKeywords.

Inductive sqlval :=
| Null
| BoolV (b : bool)
| IntV (z : Z)
| TextV (s : string)
| CharV (s : string)              (* a value of a CHAR(n) column *)
| IntArrayV (l : list Z).

Inductive clause :=
| Eq (c : column) (v : sqlval)              (* cls.col == v *)
| Is (c : column) (v : sqlval)              (* cls.col.is_(v) *)
| NameIn (k : kind) (names : list string)   (* Entity.name.in_(names) *)
| NotExistsAssoc (k : kind).
    (* ~exists(select([1]).where(Filterset.id == assoc.c.filterset_id)) *)

Inductive join_target :=
| AssocTable (k : kind)
| Entity (k : kind).

(** [func.count(assoc.c.filterset_id) == n] *)
Inductive having_clause := CountEq (k : kind) (n : nat).

Inductive group_col := FiltersetId.

Record Query := {
  q_joins : list join_target;
  q_where : list clause;
  q_group_by : list group_col;
  q_having : list having_clause }.

(** [cls.query] *)
Definition query : Query :=
  {| q_joins := []; q_where := []; q_group_by := []; q_having := [] |}.

Definition filter_ (q : Query) (cs : list clause) : Query :=
  {| q_joins := q_joins q; q_where := q_where q ++ cs;
     q_group_by := q_group_by q; q_having := q_having q |}.

Definition join (q : Query) (j : join_target) : Query :=
  {| q_joins := q_joins q ++ [j]; q_where := q_where q;
     q_group_by := q_group_by q; q_having := q_having q |}.

Definition group_by (q : Query) (c : group_col) : Query :=
  {| q_joins := q_joins q; q_where := q_where q;
     q_group_by := q_group_by q ++ [c]; q_having := q_having q |}.

Definition having (q : Query) (h : having_clause) : Query :=
  {| q_joins := q_joins q; q_where := q_where q;
     q_group_by := q_group_by q; q_having := q_having q ++ [h] |}.

(** ** What the composed SELECT returns *)

(** A row of the FROM clause: the filterset row and, for each kind whose
    tables have been joined, the association row and the entity row. *)
Record JRow := {
  r_fs : Row.t;
  r_assoc : kind -> option Assoc;
  r_entity : kind -> option Named }.

Definition base_row (f : Row.t) : JRow :=
  {| r_fs := f; r_assoc := fun _ => None; r_entity := fun _ => None |}.

Definition upd {A} (k : kind) (v : A) (m : kind -> option A) : kind -> option A :=
  fun k' => if kind_eqb k k' then Some v else m k'.

(** One inner join. The ON clause is the foreign key between the tables
    already in the FROM clause and the new one:
    [filterset.id = assoc.filterset_id], then [assoc.entity_id = entity.id].
    Joining an entity table before its association table has no foreign key
    to follow; [from_filters] never does it and the join is empty here. *)
Definition join_step (db : DB) (j : join_target) (r : JRow) : list JRow :=
  match j with
  | AssocTable k =>
      map (fun a => {| r_fs := r_fs r; r_assoc := upd k a (r_assoc r);
                       r_entity := r_entity r |})
          (filter (fun a => Row.id (r_fs r) =? filterset_id a) (assoc_table db k))
  | Entity k =>
      match r_assoc r k with
      | Some a =>
          map (fun e => {| r_fs := r_fs r; r_assoc := r_assoc r;
                           r_entity := upd k e (r_entity r) |})
              (filter (fun e => entity_id a =? ent_id e) (entity_table db k))
      | None => []
      end
  end.

Definition joined (db : DB) (js : list join_target) (rows : list JRow) : list JRow :=
  fold_left (fun rows j => flat_map (join_step db j) rows) js rows.

Definition from_rows (db : DB) (q : Query) : list JRow :=
  joined db (q_joins q) (map base_row (filterset_table db)).

Definition column_value (f : Row.t) (c : column) : sqlval :=
  match c with
  | ColBoardId => IntV (Row.board_id f)
  | ColGeonameids => IntArrayV (Row.geonameids f)
  | ColRemoteLocation => BoolV (Row.remote_location f)
  | ColPayCurrency =>
      match Row.pay_currency f with
      | Some c => CharV (char3_string c)
      | None => Null
      end
  | ColPayCash =>
      match Row.pay_cash f with Some z => IntV z | None => Null end
  | ColEquity => BoolV (Row.equity f)
  | ColKeywords => TextV (Row.keywords f)
  end.

Fixpoint list_eqb (l1 l2 : list Z) : bool :=
  match l1, l2 with
  | [], [] => true
  | x :: l1', y :: l2' => (x =? y) && list_eqb l1' l2'
  | _, _ => false
  end.

(** [IS]: null-safe identity of two values. A [CHAR(n)] value and a
    string are compared as [CHAR(n)] values, without their trailing
    blanks. *)
Definition sql_is (a b : sqlval) : bool :=
  match a, b with
  | Null, Null => true
  | BoolV x, BoolV y => Bool.eqb x y
  | IntV x, IntV y => x =? y
  | TextV x, TextV y => String.eqb x y
  | CharV x, CharV y | CharV x, TextV y | TextV x, CharV y =>
      String.eqb (rstrip x) (rstrip y)
  | IntArrayV x, IntArrayV y => list_eqb x y
  | _, _ => false
  end.

(** [=]: a comparison with NULL is unknown, and WHERE drops the row. The
    ORM renders [col == None] as [col IS NULL]. *)
Definition sql_eq (a b : sqlval) : bool :=
  match b with
  | Null => sql_is a Null
  | _ => match a with Null => false | _ => sql_is a b end
  end.

Definition eval_clause (db : DB) (r : JRow) (c : clause) : bool :=
  match c with
  | Eq col v => sql_eq (column_value (r_fs r) col) v
  | Is col v => sql_is (column_value (r_fs r) col) v
  | NameIn k names =>
      match r_entity r k with
      | Some e => existsb (String.eqb (ent_name e)) names
      | None => false
      end
  | NotExistsAssoc k =>
      negb (existsb (fun a => Row.id (r_fs r) =? filterset_id a) (assoc_table db k))
  end.

Definition where_rows (db : DB) (q : Query) : list JRow :=
  filter (fun r => forallb (eval_clause db r) (q_where q)) (from_rows db q).

(** GROUP BY filterset.id: the distinct keys in order of first appearance,
    and the rows of each. *)
Fixpoint distinct (l : list Z) : list Z :=
  match l with
  | [] => []
  | x :: l' => x :: filter (fun y => negb (y =? x)) (distinct l')
  end.

Definition row_key (r : JRow) : Z := Row.id (r_fs r).

Definition groups (rows : list JRow) : list (list JRow) :=
  map (fun k => filter (fun r => row_key r =? k) rows)
      (distinct (map row_key rows)).

Definition is_some {A} (o : option A) : bool :=
  match o with Some _ => true | None => false end.

(** [count(col)] counts the rows of the group where [col] is not NULL. *)
Definition eval_having (g : list JRow) (h : having_clause) : bool :=
  match h with
  | CountEq k n => Nat.eqb (List.length (filter (fun r => is_some (r_assoc r k)) g)) n
  end.

(** The selected entity of a group: every column of [filterset] depends on
    the grouping key, its primary key. *)
Definition group_entity (g : list JRow) : list Row.t :=
  match g with
  | [] => []
  | r :: _ => [r_fs r]
  end.

(** The entities the SELECT returns: one per row of FROM ... WHERE, or,
    with GROUP BY, one per group that passes HAVING. *)
Definition all (db : DB) (q : Query) : list Row.t :=
  match q_group_by q with
  | [] => map r_fs (where_rows db q)
  | _ :: _ =>
      flat_map group_entity
        (filter (fun g => forallb (eval_having g) (q_having q))
                (groups (where_rows db q)))
  end.

(** [Query.one_or_none()]: no row gives [None], one row gives it, more
    raise. *)
Definition one_or_none {A} (rows : list A) : result (option A) :=
  match rows with
  | [] => Ok None
  | [x] => Ok (Some x)
  | _ :: _ :: _ => Raise MultipleResultsFound
  end.

(** ** The filters dictionary *)

(** The dictionary passed to [from_filters] and built by [to_filters], one
    field per key. [from_filters] reads every key through
    [filters.get(key)] first, so a key that is absent and a key that maps to
    [None] are the same to it: both are [None] here, and
    [{}] is [no_filters]. *)
Record Filters := {
  f_t : option (list string);
  f_c : option (list string);
  f_k : option (list string);
  f_d : option (list string);
  f_l : option (list Z);
  f_currency : option string;
  f_pay : option Z;
  f_equity : option bool;
  f_anywhere : option bool;
  f_q : option string }.

Definition no_filters : Filters :=
  {| f_t := None; f_c := None; f_k := None; f_d := None; f_l := None;
     f_currency := None; f_pay := None; f_equity := None;
     f_anywhere := None; f_q := None |}.

(** ** The model class *)

Module Filterset.

(** An instance of the class: the columns, and the four relationships as
    the lists of loaded entities. [id] is [None] until the INSERT has
    happened. [board] is the board's primary key. *)
Record t := {
  id : option Z;
  board : Z;
  name : string;
  description : string;
  types : list Named;
  categories : list Named;
  tags : list Named;
  domains : list Named;
  geonameids : list Z;
  remote_location : bool;
  pay_currency : option string;
  pay_cash : option Z;
  equity : bool;
  keywords : string }.

Definition set_geonameids (self : t) (l : list Z) : t :=
  {| id := id self; board := board self; name := name self;
     description := description self; types := types self;
     categories := categories self; tags := tags self;
     domains := domains self; geonameids := l;
     remote_location := remote_location self;
     pay_currency := pay_currency self; pay_cash := pay_cash self;
     equity := equity self; keywords := keywords self |}.

(** [to_filters(self)] with the default [translate_geonameids=False]:
    [location_names] stays unused and ['l'] is [self.geonameids]. The
    other branch asks the external geodata service for place names and is
    not modelled. *)
Definition to_filters (self : t) : Filters :=
  {| f_t := Some (map ent_name (types self));
     f_c := Some (map ent_name (categories self));
     f_k := Some (map ent_name (tags self));
     f_d := Some (map ent_name (domains self));
     f_l := Some (geonameids self);
     f_currency := pay_currency self;
     f_pay := pay_cash self;
     f_equity := Some (equity self);
     f_anywhere := Some (remote_location self);
     f_q := Some (keywords self) |}.

(** The query [from_filters] composes, statement by statement. *)
Definition from_filters_query (board : Z) (filters : Filters) : Query :=
  let basequery := filter_ query [Eq ColBoardId (IntV board)] in

  let basequery :=
    match get_truthy (f_t filters) with
    | Some names =>
        having
          (group_by
             (filter_
                (join (join basequery (AssocTable JobType)) (Entity JobType))
                [NameIn JobType names])
             FiltersetId)
          (CountEq JobType (List.length names))
    | None => filter_ basequery [NotExistsAssoc JobType]
    end in

  let basequery :=
    match get_truthy (f_c filters) with
    | Some names =>
        having
          (group_by
             (filter_
                (join (join basequery (AssocTable JobCategory)) (Entity JobCategory))
                [NameIn JobCategory names])
             FiltersetId)
          (CountEq JobCategory (List.length names))
    | None => filter_ basequery [NotExistsAssoc JobCategory]
    end in

  let basequery :=
    match get_truthy (f_k filters) with
    | Some names =>
        having
          (group_by
             (filter_
                (join (join basequery (AssocTable Tag)) (Entity Tag))
                [NameIn Tag names])
             FiltersetId)
          (CountEq Tag (List.length names))
    | None => filter_ basequery [NotExistsAssoc Tag]
    end in

  let basequery :=
    match get_truthy (f_d filters) with
    | Some names =>
        having
          (group_by
             (filter_
                (join (join basequery (AssocTable Domain)) (Entity Domain))
                [NameIn Domain names])
             FiltersetId)
          (CountEq Domain (List.length names))
    | None => filter_ basequery [NotExistsAssoc Domain]
    end in

  let basequery :=
    match get_truthy (f_l filters) with
    | Some l => filter_ basequery [Eq ColGeonameids (IntArrayV (sorted l))]
    | None => filter_ basequery [Eq ColGeonameids (IntArrayV [])]
    end in

  let basequery :=
    match get_truthy (f_equity filters) with
    | Some _ => filter_ basequery [Is ColEquity (BoolV true)]
    | None => filter_ basequery [Is ColEquity (BoolV false)]
    end in

  let basequery :=
    match get_truthy (f_pay filters), get_truthy (f_currency filters) with
    | Some pay, Some currency =>
        filter_ basequery
          [Eq ColPayCash (IntV pay); Eq ColPayCurrency (TextV currency)]
    | _, _ =>
        filter_ basequery [Is ColPayCash Null; Is ColPayCurrency Null]
    end in

  let basequery :=
    match get_truthy (f_q filters) with
    | Some q => filter_ basequery [Eq ColKeywords (TextV q)]
    | None => filter_ basequery [Eq ColKeywords (TextV "")]
    end in

  let basequery :=
    match get_truthy (f_anywhere filters) with
    | Some _ => filter_ basequery [Is ColRemoteLocation (BoolV true)]
    | None => filter_ basequery [Is ColRemoteLocation (BoolV false)]
    end in

  basequery.

(** [from_filters(cls, board, filters)], run against the database. *)
Definition from_filters (db : DB) (board : Z) (filters : Filters)
  : result (option Row.t) :=
  one_or_none (all db (from_filters_query board filters)).

End Filterset.

(** ** Instances and rows *)

(** The entities a relationship loads for the filterset [fid]. *)
Definition related (db : DB) (k : kind) (fid : Z) : list Named :=
  flat_map (fun a => filter (fun e => entity_id a =? ent_id e) (entity_table db k))
           (filter (fun a => fid =? filterset_id a) (assoc_table db k)).

(** The instance the ORM loads for a persisted row. *)
Definition load (db : DB) (row : Row.t) : Filterset.t :=
  {| Filterset.id := Some (Row.id row);
     Filterset.board := Row.board_id row;
     Filterset.name := Row.name row;
     Filterset.description := Row.description row;
     Filterset.types := related db JobType (Row.id row);
     Filterset.categories := related db JobCategory (Row.id row);
     Filterset.tags := related db Tag (Row.id row);
     Filterset.domains := related db Domain (Row.id row);
     Filterset.geonameids := Row.geonameids row;
     Filterset.remote_location := Row.remote_location row;
     Filterset.pay_currency := option_map char3_string (Row.pay_currency row);
     Filterset.pay_cash := Row.pay_cash row;
     Filterset.equity := Row.equity row;
     Filterset.keywords := Row.keywords row |}.

(** ** The pre-save hook *)

Definition id_differs (row_id : Z) (target_id : option Z) : bool :=
  match target_id with
  | Some i => negb (row_id =? i)
  | None => true
  end.

Definition collision_message : string :=
  "There already exists a filter set with this filter criteria".

(** [_format_and_validate(mapper, connection, target)], listening on
    [before_insert] and [before_update]. The hook mutates [target] and may
    raise: it returns the target as it leaves it, and the outcome. The
    database is the one the flush sees, the target's own pending changes
    not yet written ([no_autoflush]). *)
Definition _format_and_validate (db : DB) (target : Filterset.t)
  : Filterset.t * result unit :=
  let target :=
    if truthy (Filterset.geonameids target)
    then Filterset.set_geonameids target (sorted (Filterset.geonameids target))
    else target in
  match Filterset.from_filters db (Filterset.board target)
                               (Filterset.to_filters target) with
  | Raise e => (target, Raise e)
  | Ok (Some filterset) =>
      if id_differs (Row.id filterset) (Filterset.id target)
      then (target, Raise (ValueError collision_message))
      else (target, Ok tt)
  | Ok None => (target, Ok tt)
  end.

(** ** Saving: the ORM's flush around the hook *)

(** The columns the flush writes for an instance. *)
Definition row_of (i : Z) (o : Filterset.t) : Row.t :=
  {| Row.id := i;
     Row.board_id := Filterset.board o;
     Row.name := Filterset.name o;
     Row.description := Filterset.description o;
     Row.geonameids := Filterset.geonameids o;
     Row.remote_location := Filterset.remote_location o;
     Row.pay_currency := option_map char3_cut (Filterset.pay_currency o);
     Row.pay_cash := Filterset.pay_cash o;
     Row.equity := Filterset.equity o;
     Row.keywords := Filterset.keywords o |}.

Definition relationship (o : Filterset.t) (k : kind) : list Named :=
  match k with
  | JobType => Filterset.types o
  | JobCategory => Filterset.categories o
  | Tag => Filterset.tags o
  | Domain => Filterset.domains o
  end.

Definition assoc_rows (i : Z) (o : Filterset.t) (k : kind) : list Assoc :=
  map (fun e => {| filterset_id := i; entity_id := ent_id e |}) (relationship o k).

(** The next value of the primary-key sequence: above every id in use. *)
Definition next_id (db : DB) : Z :=
  1 + fold_right Z.max 0 (map Row.id (filterset_table db)).

(** The tables after the INSERT of a pending instance: the row, with the
    next primary key, and its association rows. *)
Definition inserted (db : DB) (target : Filterset.t) : DB :=
  let i := next_id db in
  {| filterset_table := filterset_table db ++ [row_of i target];
     entity_table := entity_table db;
     assoc_table := fun k => assoc_table db k ++ assoc_rows i target k |}.

(** The tables after the UPDATE of the persistent instance with primary key
    [i]: its row and its association rows are replaced. *)
Definition updated (db : DB) (i : Z) (target : Filterset.t) : DB :=
  {| filterset_table :=
       map (fun r => if Row.id r =? i then row_of i target else r)
           (filterset_table db);
     entity_table := entity_table db;
     assoc_table := fun k =>
       filter (fun a => negb (filterset_id a =? i)) (assoc_table db k)
       ++ assoc_rows i target k |}.

(** Whether the statement can write the instance's currency. *)
Definition currency_fits (target : Filterset.t) : bool :=
  match Filterset.pay_currency target with
  | Some s => fits_char3 s
  | None => true
  end.

(** [session.add(target); session.commit()]. An instance without a primary
    key is pending: [before_insert] fires, then the INSERT. An instance
    with one is persistent: [before_update] fires, then the UPDATE. Both
    events run the hook, and when it raises nothing is written. The
    statement itself fails on a currency too long for [CHAR(3)]. *)
Definition save (db : DB) (target : Filterset.t) : result DB :=
  match _format_and_validate db target with
  | (_, Raise e) => Raise e
  | (target, Ok _) =>
      if currency_fits target
      then match Filterset.id target with
           | None => Ok (inserted db target)
           | Some i => Ok (updated db i target)
           end
      else Raise (DataError "value too long for type character(3)")
  end.

(** ** The migration *)

Module Alembic.

Record Table := { tbl_name : string; tbl_columns : list string }.

Record Index := {
  index_name : string;
  table_name : string;
  columns : list string;
  unique : bool }.

Record Schema := { tables : list Table; indexes : list Index }.

(** [op.f(name)]: the name is final, no naming convention is applied. *)
Definition f (name : string) : string := name.

Definition has_index (s : Schema) (name : string) : bool :=
  existsb (fun i => String.eqb (index_name i) name) (indexes s).

Definition has_columns (s : Schema) (table : string) (cols : list string) : bool :=
  existsb (fun t => String.eqb (tbl_name t) table
                    && forallb (fun c => existsb (String.eqb c) (tbl_columns t)) cols)
          (tables s).

(** [op.create_index(name, table, columns, unique)]: CREATE INDEX fails
    when the table or a column does not exist, or the name is taken. *)
Definition create_index (name table : string) (cols : list string)
           (unique : bool) (s : Schema) : result Schema :=
  if negb (has_columns s table cols)
  then Raise (ProgrammingError "no such table or column")
  else if has_index s name
  then Raise (ProgrammingError "relation already exists")
  else Ok {| tables := tables s;
             indexes := indexes s ++
               [{| index_name := name; table_name := table;
                   columns := cols; unique := unique |}] |}.

(** [op.drop_index(name, table_name)]: DROP INDEX fails when there is no
    such index. *)
Definition drop_index (name table : string) (s : Schema) : result Schema :=
  if has_index s name
  then Ok {| tables := tables s;
             indexes := filter (fun i => negb (String.eqb (index_name i) name))
                               (indexes s) |}
  else Raise (ProgrammingError "index does not exist").

Definition upgrade (s : Schema) : result Schema :=
  create_index (f "ix_jobpost_datetime") "jobpost" ["datetime"] false s.

Definition downgrade (s : Schema) : result Schema :=
  drop_index (f "ix_jobpost_datetime") "jobpost" s.

End Alembic.

(** ** Whether a stored row matches *)

Definition nonempty {A} (l : list A) : bool :=
  match l with [] => false | _ :: _ => true end.

(** The rows of FROM ... WHERE that come from the filterset row [f]. *)
Definition row_rows (db : DB) (q : Query) (f : Row.t) : list JRow :=
  filter (fun r => forallb (eval_clause db r) (q_where q))
         (joined db (q_joins q) [base_row f]).

(** The stored row [f] matches the composed predicate: some joined row of
    [f] passes WHERE and, when the query groups, the group of [f] passes
    HAVING. *)
Definition matches (db : DB) (q : Query) (f : Row.t) : bool :=
  nonempty (row_rows db q f)
  && match q_group_by q with
     | [] => true
     | _ :: _ => forallb (eval_having (row_rows db q f)) (q_having q)
     end.

(** ** The blocks of [from_filters] *)

(** One of the four many-to-many blocks of [from_filters]. *)
Definition m2m_step (k : kind) (names : option (list string)) (q : Query) : Query :=
  match get_truthy names with
  | Some names =>
      having
        (group_by
           (filter_ (join (join q (AssocTable k)) (Entity k)) [NameIn k names])
           FiltersetId)
        (CountEq k (List.length names))
  | None => filter_ q [NotExistsAssoc k]
  end.

(** The clauses the location and scalar blocks add to WHERE, in order. *)
Definition scalar_clauses (filters : Filters) : list clause :=
  [match get_truthy (f_l filters) with
   | Some l => Eq ColGeonameids (IntArrayV (sorted l))
   | None => Eq ColGeonameids (IntArrayV [])
   end;
   match get_truthy (f_equity filters) with
   | Some _ => Is ColEquity (BoolV true)
   | None => Is ColEquity (BoolV false)
   end]
  ++ match get_truthy (f_pay filters), get_truthy (f_currency filters) with
     | Some pay, Some currency =>
         [Eq ColPayCash (IntV pay); Eq ColPayCurrency (TextV currency)]
     | _, _ => [Is ColPayCash Null; Is ColPayCurrency Null]
     end
  ++ [match get_truthy (f_q filters) with
      | Some q => Eq ColKeywords (TextV q)
      | None => Eq ColKeywords (TextV "")
      end;
      match get_truthy (f_anywhere filters) with
      | Some _ => Is ColRemoteLocation (BoolV true)
      | None => Is ColRemoteLocation (BoolV false)
      end].

Definition m2m_filter (filters : Filters) (k : kind) : option (list string) :=
  match k with
  | JobType => f_t filters
  | JobCategory => f_c filters
  | Tag => f_k filters
  | Domain => f_d filters
  end.

Definition m2m_query (board : Z) (filters : Filters) : Query :=
  m2m_step Domain (f_d filters)
    (m2m_step Tag (f_k filters)
       (m2m_step JobCategory (f_c filters)
          (m2m_step JobType (f_t filters)
             (filter_ query [Eq ColBoardId (IntV board)])))).

(** ** A filterset with nothing set *)

(** The stored row [f] has no criterion set. *)
Definition no_criteria (db : DB) (f : Row.t) : Prop :=
  (forall k a, In a (assoc_table db k) -> filterset_id a <> Row.id f)
  /\ Row.geonameids f = []
  /\ Row.equity f = false
  /\ Row.remote_location f = false
  /\ Row.pay_cash f = None
  /\ Row.pay_currency f = None
  /\ Row.keywords f = "".

(** The invariant on the stored column. *)
Definition geonameids_sorted (db : DB) : Prop :=
  Forall (fun r => Sorted Z.le (Row.geonameids r)) (filterset_table db).

(** ** Sample data *)

Module Sample.

Definition fulltime := {| ent_id := 1; ent_name := "fulltime" |}.
Definition contract := {| ent_id := 2; ent_name := "contract" |}.
Definition programming := {| ent_id := 1; ent_name := "programming" |}.
Definition design := {| ent_id := 2; ent_name := "design" |}.

Definition entities (k : kind) : list Named :=
  match k with
  | JobType => [fulltime; contract]
  | JobCategory => [programming; design]
  | Tag => []
  | Domain => []
  end.

Definition empty_db : DB :=
  {| filterset_table := []; entity_table := entities;
     assoc_table := fun _ => [] |}.

Definition blank (i : option Z) (nm : string) : Filterset.t :=
  {| Filterset.id := i; Filterset.board := 1; Filterset.name := nm;
     Filterset.description := "";
     Filterset.types := []; Filterset.categories := [];
     Filterset.tags := []; Filterset.domains := [];
     Filterset.geonameids := []; Filterset.remote_location := false;
     Filterset.pay_currency := None; Filterset.pay_cash := None;
     Filterset.equity := false; Filterset.keywords := "" |}.

Definition with_m2m (o : Filterset.t) (ts cs : list Named) : Filterset.t :=
  {| Filterset.id := Filterset.id o; Filterset.board := Filterset.board o;
     Filterset.name := Filterset.name o;
     Filterset.description := Filterset.description o;
     Filterset.types := ts; Filterset.categories := cs;
     Filterset.tags := Filterset.tags o; Filterset.domains := Filterset.domains o;
     Filterset.geonameids := Filterset.geonameids o;
     Filterset.remote_location := Filterset.remote_location o;
     Filterset.pay_currency := Filterset.pay_currency o;
     Filterset.pay_cash := Filterset.pay_cash o;
     Filterset.equity := Filterset.equity o;
     Filterset.keywords := Filterset.keywords o |}.

End Sample.

Module Stored.
Import Sample.

Definition row (i : Z) (nm : string) : Row.t := row_of i (blank None nm).

(** Two filtersets with no criteria on the same board: the state two
    concurrent writers can leave behind. *)
Definition two_blank : DB :=
  {| filterset_table := [row 1 "a"; row 2 "b"]; entity_table := entities;
     assoc_table := fun _ => [] |}.

Definition one_blank : DB :=
  {| filterset_table := [row 1 "a"]; entity_table := entities;
     assoc_table := fun _ => [] |}.

Definition unsorted_target : Filterset.t :=
  Filterset.set_geonameids (blank None "cities") [1277333; 1264527; 1275339].

End Stored.

Module Cases.
Import Sample.

Definition assoc (fid eid : Z) : Assoc :=
  {| filterset_id := fid; entity_id := eid |}.

Definition only_types (names : list string) : Filters :=
  {| f_t := Some names; f_c := None; f_k := None; f_d := None; f_l := None;
     f_currency := None; f_pay := None; f_equity := None;
     f_anywhere := None; f_q := None |}.

Definition types_and_categories (ts cs : list string) : Filters :=
  {| f_t := Some ts; f_c := Some cs; f_k := None; f_d := None; f_l := None;
     f_currency := None; f_pay := None; f_equity := None;
     f_anywhere := None; f_q := None |}.

(** One filterset, with job types fulltime and contract. *)
Definition two_types : DB :=
  {| filterset_table := [Stored.row 1 "a"]; entity_table := entities;
     assoc_table := fun k =>
       match k with
       | JobType => [assoc 1 1; assoc 1 2]
       | _ => []
       end |}.

(** One filterset, with job types fulltime and contract and categories
    programming and design. *)
Definition two_by_two : DB :=
  {| filterset_table := [Stored.row 1 "a"]; entity_table := entities;
     assoc_table := fun k =>
       match k with
       | JobType => [assoc 1 1; assoc 1 2]
       | JobCategory => [assoc 1 1; assoc 1 2]
       | _ => []
       end |}.

(** One filterset, with job type fulltime and categories programming
    and design. *)
Definition one_by_two : DB :=
  {| filterset_table := [Stored.row 1 "a"]; entity_table := entities;
     assoc_table := fun k =>
       match k with
       | JobType => [assoc 1 1]
       | JobCategory => [assoc 1 1; assoc 1 2]
       | _ => []
       end |}.

(** One filterset, with job type fulltime. *)
Definition one_type : DB :=
  {| filterset_table := [Stored.row 1 "a"]; entity_table := entities;
     assoc_table := fun k =>
       match k with
       | JobType => [assoc 1 1]
       | _ => []
       end |}.

Definition new_two_by_two (nm : string) : Filterset.t :=
  with_m2m (blank None nm) [fulltime; contract] [programming; design].

Definition new_two_by_one (nm : string) : Filterset.t :=
  with_m2m (blank None nm) [fulltime; contract] [programming].

(** Two filtersets with job types fulltime and contract: the first with
    categories programming and design, the second with programming
    only. *)
Definition two_and_one : DB :=
  {| filterset_table := [Stored.row 1 "a"; Stored.row 2 "c"];
     entity_table := entities;
     assoc_table := fun k =>
       match k with
       | JobType => [assoc 1 1; assoc 1 2; assoc 2 1; assoc 2 2]
       | JobCategory => [assoc 1 1; assoc 1 2; assoc 2 1]
       | _ => []
       end |}.

End Cases.

(** ** Lookup by name *)


(** ** Location names *)

Section Geodata.

(** [location_geodata] of [hasjob.extapi], which is not part of the sources:
    it asks the geodata service and returns a dictionary keyed by geonameid;
    [to_filters] reads the ['name'] of an entry only, so an entry is its
    key and that name. *)
Variable location_geodata : list Z -> list (Z * string).

(** [location_dict[geonameid]['name']]; [None] stands for the [KeyError]. *)
Fixpoint dict_name (location_dict : list (Z * string)) (geonameid : Z)
  : option string :=
  match location_dict with
  | [] => None
  | (k, nm) :: d => if k =? geonameid then Some nm else dict_name d geonameid
  end.

(** The loop of [to_filters]: one name appended per geonameid, the
    [KeyError] of a missing one ending it. *)
Fixpoint append_names (location_dict : list (Z * string)) (geonameids : list Z)
  : option (list string) :=
  match geonameids with
  | [] => Some []
  | geonameid :: rest =>
      match dict_name location_dict geonameid with
      | None => None
      | Some nm =>
          match append_names location_dict rest with
          | None => None
          | Some names => Some (nm :: names)
          end
      end
  end.

(** [location_names] as [to_filters] leaves it. *)
Definition location_names (self : Filterset.t) (translate_geonameids : bool)
  : option (list string) :=
  if translate_geonameids && truthy (Filterset.geonameids self)
  then append_names (location_geodata (Filterset.geonameids self))
                    (Filterset.geonameids self)
  else Some [].

(** The value [to_filters] puts under ['l']:
    [location_names if translate_geonameids else self.geonameids]. *)
Definition to_filters_l (self : Filterset.t) (translate_geonameids : bool)
  : option (list string + list Z) :=
  match location_names self translate_geonameids with
  | None => None
  | Some names =>
      Some (if translate_geonameids then inl names
            else inr (Filterset.geonameids self))
  end.

End Geodata.

(** ** Filters with the falsy values dropped *)

(** The dictionary with every key that [from_filters] treats as absent
    removed: a falsy value, and pay or currency without the other. *)
Definition drop_falsy (filters : Filters) : Filters :=
  {| f_t := get_truthy (f_t filters);
     f_c := get_truthy (f_c filters);
     f_k := get_truthy (f_k filters);
     f_d := get_truthy (f_d filters);
     f_l := get_truthy (f_l filters);
     f_currency :=
       match get_truthy (f_pay filters), get_truthy (f_currency filters) with
       | Some _, Some currency => Some currency
       | _, _ => None
       end;
     f_pay :=
       match get_truthy (f_pay filters), get_truthy (f_currency filters) with
       | Some pay, Some _ => Some pay
       | _, _ => None
       end;
     f_equity := get_truthy (f_equity filters);
     f_anywhere := get_truthy (f_anywhere filters);
     f_q := get_truthy (f_q filters) |}.

Definition with_l (filters : Filters) (l : option (list Z)) : Filters :=
  {| f_t := f_t filters; f_c := f_c filters; f_k := f_k filters;
     f_d := f_d filters; f_l := l; f_currency := f_currency filters;
     f_pay := f_pay filters; f_equity := f_equity filters;
     f_anywhere := f_anywhere filters; f_q := f_q filters |}.

(** The pay columns of a stored row as [from_filters] can match them: both
    NULL, or an amount other than 0 with a currency other than the empty
    string. *)
Definition pay_matchable (f : Row.t) : Prop :=
  match Row.pay_cash f, Row.pay_currency f with
  | None, None => True
  | Some pay, Some currency => pay <> 0 /\ char3_string currency <> ""
  | _, _ => False
  end.


(** The scalar and location columns of the stored row [f] are what the
    filters ask for. *)
Definition scalar_agree (filters : Filters) (f : Row.t) : Prop :=
  Row.geonameids f = match get_truthy (f_l filters) with
                     | Some l => sorted l
                     | None => []
                     end
  /\ Row.equity f = truthy (f_equity filters)
  /\ Row.remote_location f = truthy (f_anywhere filters)
  /\ match get_truthy (f_pay filters), get_truthy (f_currency filters) with
     | Some pay, Some currency =>
         Row.pay_cash f = Some pay
         /\ exists c, Row.pay_currency f = Some c /\ char3_is c currency
     | _, _ => Row.pay_cash f = None /\ Row.pay_currency f = None
     end
  /\ Row.keywords f = match get_truthy (f_q filters) with
                      | Some q => q
                      | None => ""
                      end.


(** The stored row [f] has no association of any kind. *)
Definition no_associations (db : DB) (f : Row.t) : Prop :=
  forall k a, In a (assoc_table db k) -> filterset_id a <> Row.id f.

(** What every row of the FROM clause carries: an association row belongs
    to the filterset of the row, and an entity is one the relationship of
    that kind loads for it. *)
Definition row_ok (db : DB) (r : JRow) : Prop :=
  (forall k a, r_assoc r k = Some a ->
     In a (assoc_table db k) /\ Row.id (r_fs r) = filterset_id a)
  /\ (forall k e, r_entity r k = Some e ->
        In e (related db k (Row.id (r_fs r)))).

(** The database with the filtersets of one board only. *)
Definition on_board (db : DB) (board : Z) : DB :=
  {| filterset_table :=
       filter (fun f => Row.board_id f =? board) (filterset_table db);
     entity_table := entity_table db;
     assoc_table := assoc_table db |}.



(** The instance has no entity in any of its four relationships. *)
Definition bare (target : Filterset.t) : Prop :=
  forall k, relationship target k = [].

(** ** More sample data *)

Module More.
Import Sample.

(** A filterset for three cities, as the hook stores it. *)
Definition cities_row : Row.t :=
  row_of 1 (fst (_format_and_validate empty_db Stored.unsorted_target)).

Definition cities_db : DB :=
  {| filterset_table := [cities_row]; entity_table := entities;
     assoc_table := fun _ => [] |}.

Definition only_locations (l : list Z) : Filters :=
  with_l no_filters (Some l).

(** A filterset that pays in rupees. *)
Definition paid_row : Row.t :=
  {| Row.id := 1; Row.board_id := 1; Row.name := "paid";
     Row.description := ""; Row.geonameids := [];
     Row.remote_location := false;
     Row.pay_currency := Some (char3_cut "INR");
     Row.pay_cash := Some 500000; Row.equity := false; Row.keywords := "" |}.

Definition paid_db : DB :=
  {| filterset_table := [paid_row]; entity_table := entities;
     assoc_table := fun _ => [] |}.

Definition paid_filters : Filters :=
  {| f_t := None; f_c := None; f_k := None; f_d := None; f_l := None;
     f_currency := Some "INR"; f_pay := Some 500000; f_equity := None;
     f_anywhere := None; f_q := None |}.

(** Two filtersets with nothing set, on boards 1 and 2. *)
Definition two_boards : DB :=
  {| filterset_table :=
       [Stored.row 1 "a";
        {| Row.id := 2; Row.board_id := 2; Row.name := "a";
           Row.description := ""; Row.geonameids := [];
           Row.remote_location := false; Row.pay_currency := None;
           Row.pay_cash := None; Row.equity := false; Row.keywords := "" |}];
     entity_table := entities;
     assoc_table := fun _ => [] |}.

(** A filterset with every scalar criterion set; the currency is stored
    padded to three characters. *)
Definition busy_row : Row.t :=
  {| Row.id := 1; Row.board_id := 1; Row.name := "busy";
     Row.description := ""; Row.geonameids := [];
     Row.remote_location := true;
     Row.pay_currency := Some (char3_cut "US");
     Row.pay_cash := Some 100; Row.equity := true;
     Row.keywords := "python" |}.

Definition busy_db : DB :=
  {| filterset_table := [busy_row]; entity_table := entities;
     assoc_table := fun _ => [] |}.

Definition busy_filters : Filters :=
  {| f_t := None; f_c := None; f_k := None; f_d := None; f_l := None;
     f_currency := Some "US"; f_pay := Some 100; f_equity := Some true;
     f_anywhere := Some true; f_q := Some "python" |}.

(** The answer of the geodata service for two cities: it holds a related
    place as well. *)
Definition geodata (geonameids : list Z) : list (Z * string) :=
  [(1277333, "Bangalore"); (1269750, "India"); (1264527, "Chennai")].

End More.

(** * Properties *)

(** ** [sorted] *)

Section Sorting.

Lemma insert_sorted_perm (x : Z) (l : list Z) :
  Permutation (x :: l) (insert_sorted x l).
Proof.
  induction l as [|y l IH]; simpl.
  - apply Permutation_refl.
  - destruct (x <=? y).
    + apply Permutation_refl.
    + eapply perm_trans; [apply perm_swap|].
      apply perm_skip, IH.
Qed.

Lemma sorted_perm (l : list Z) : Permutation l (sorted l).
Proof.
  induction l as [|x l IH]; simpl.
  - constructor.
  - eapply perm_trans; [apply perm_skip, IH|].
    apply insert_sorted_perm.
Qed.

Lemma insert_sorted_hd (x a : Z) (l : list Z) :
  a <= x -> HdRel Z.le a l -> HdRel Z.le a (insert_sorted x l).
Proof.
  intros Hax Hhd. destruct l as [|y l]; simpl.
  - constructor. exact Hax.
  - destruct (x <=? y); constructor.
    + exact Hax.
    + inversion Hhd; assumption.
Qed.

Lemma insert_sorted_ok (x : Z) (l : list Z) :
  Sorted Z.le l -> Sorted Z.le (insert_sorted x l).
Proof.
  induction 1 as [|y l Hs IH Hhd]; simpl.
  - repeat constructor.
  - destruct (x <=? y) eqn:E.
    + apply Z.leb_le in E. repeat constructor; assumption.
    + apply Z.leb_gt in E. constructor; [exact IH|].
      apply insert_sorted_hd; [lia | exact Hhd].
Qed.

Lemma sorted_ok (l : list Z) : Sorted Z.le (sorted l).
Proof.
  induction l as [|x l IH]; simpl.
  - constructor.
  - apply insert_sorted_ok, IH.
Qed.

End Sorting.

(** ** The query builder: what each method leaves untouched *)

Section Builder.

Lemma list_eqb_eq (l1 l2 : list Z) : list_eqb l1 l2 = true <-> l1 = l2.
Proof.
  revert l2. induction l1 as [|x l1 IH]; intros [|y l2]; simpl;
    try (split; [discriminate | discriminate]); try tauto.
  rewrite andb_true_iff, Z.eqb_eq, IH.
  split; [intros [-> ->]; reflexivity | intros H; inversion H; auto].
Qed.

Lemma join_step_fs db j r r' : In r' (join_step db j r) -> r_fs r' = r_fs r.
Proof.
  destruct j as [k|k]; simpl.
  - intros H. apply in_map_iff in H. destruct H as [a [<- _]]. reflexivity.
  - destruct (r_assoc r k); [|intros []].
    intros H. apply in_map_iff in H. destruct H as [e [<- _]]. reflexivity.
Qed.

Lemma joined_app db js l1 l2 :
  joined db js (l1 ++ l2) = joined db js l1 ++ joined db js l2.
Proof.
  revert l1 l2. induction js as [|j js IH]; intros l1 l2; simpl.
  - reflexivity.
  - rewrite flat_map_app. apply IH.
Qed.

Lemma joined_nil db js : joined db js [] = [].
Proof. induction js; simpl; auto. Qed.

Lemma joined_flat_map db js (rows : list JRow) :
  joined db js rows = flat_map (fun r => joined db js [r]) rows.
Proof.
  induction rows as [|r rows IH]; simpl.
  - apply joined_nil.
  - change (r :: rows) with ([r] ++ rows).
    rewrite joined_app, IH. reflexivity.
Qed.

Lemma joined_fs db js rows r' :
  In r' (joined db js rows) -> exists r, In r rows /\ r_fs r' = r_fs r.
Proof.
  revert rows. induction js as [|j js IH]; intros rows; simpl.
  - intros H. exists r'. auto.
  - intros H. apply IH in H. destruct H as [r1 [H1 E1]].
    apply in_flat_map in H1. destruct H1 as [r [Hr Hj]].
    exists r. split; [exact Hr|].
    rewrite E1. eapply join_step_fs; eauto.
Qed.

End Builder.

(** ** The rows one filterset contributes *)

Section Locality.

Variable db : DB.
Variable q : Query.

Lemma where_rows_blocks :
  where_rows db q = flat_map (row_rows db q) (filterset_table db).
Proof.
  unfold where_rows, from_rows, row_rows.
  induction (filterset_table db) as [|f fs IH]; simpl.
  - rewrite joined_nil. reflexivity.
  - change (base_row f :: map base_row fs)
      with ([base_row f] ++ map base_row fs).
    rewrite joined_app, filter_app, IH. reflexivity.
Qed.

Lemma row_rows_fs f r : In r (row_rows db q f) -> r_fs r = f.
Proof.
  unfold row_rows. intros H. apply filter_In in H. destruct H as [H _].
  apply joined_fs in H. destruct H as [r0 [[<-|[]] E]]. exact E.
Qed.

Lemma distinct_In x l : In x (distinct l) <-> In x l.
Proof.
  induction l as [|y l IH]; simpl; [tauto|].
  rewrite filter_In, IH. split.
  - intros [H|[H _]]; auto.
  - intros [H|H]; auto.
    destruct (Z.eq_dec x y) as [->|Hne]; auto.
    right. split; auto. apply negb_true_iff, Z.eqb_neq. exact Hne.
Qed.

Lemma distinct_filter (p : Z -> bool) l :
  filter p (distinct l) = distinct (filter p l).
Proof.
  induction l as [|y l IH]; simpl; [reflexivity|].
  destruct (p y) eqn:E; simpl.
  - f_equal. rewrite <- IH.
    clear. induction (distinct l) as [|z d IHd]; simpl; [reflexivity|].
    destruct (negb (z =? y)) eqn:E1, (p z) eqn:E2; simpl;
      rewrite ?E1, ?E2, IHd; reflexivity.
  - rewrite <- IH. clear IH.
    induction (distinct l) as [|z d IHd]; simpl; [reflexivity|].
    destruct (negb (z =? y)) eqn:E1; simpl.
    + rewrite IHd. reflexivity.
    + apply negb_false_iff, Z.eqb_eq in E1. subst z. rewrite E, IHd.
      reflexivity.
Qed.

Lemma filter_all {A} (p : A -> bool) l :
  (forall x, In x l -> p x = true) -> filter p l = l.
Proof.
  induction l as [|x l IH]; simpl; intros H; [reflexivity|].
  rewrite (H x (or_introl eq_refl)), IH; auto.
Qed.

Lemma filter_none {A} (p : A -> bool) l :
  (forall x, In x l -> p x = false) -> filter p l = [].
Proof.
  induction l as [|x l IH]; simpl; intros H; [reflexivity|].
  rewrite (H x (or_introl eq_refl)), IH; auto.
Qed.

(** Grouping a concatenation of per-filterset blocks by the primary key
    gives back the non-empty blocks. *)
Lemma groups_blocks (B : Row.t -> list JRow) (fs : list Row.t) :
  (forall f r, In r (B f) -> r_fs r = f) ->
  NoDup (map Row.id fs) ->
  groups (flat_map B fs) = filter nonempty (map B fs).
Proof.
  intros HB. induction fs as [|f fs IH]; intros Hnd; [reflexivity|].
  simpl in Hnd. inversion Hnd as [|? ? Hnotin Hnd']; subst.
  specialize (IH Hnd'). simpl.
  assert (Hrest : forall r, In r (flat_map B fs) -> row_key r <> Row.id f).
  { intros r Hr E. apply in_flat_map in Hr. destruct Hr as [f' [Hf' Hr]].
    apply HB in Hr. apply Hnotin. apply in_map_iff. exists f'.
    split; [|exact Hf']. unfold row_key in E. rewrite Hr in E. exact E. }
  destruct (B f) as [|r0 b] eqn:EB; simpl; [exact IH|].
  assert (Hblock : forall r, In r (r0 :: b) -> row_key r = Row.id f).
  { intros r Hr. unfold row_key. rewrite (HB f r); [reflexivity|].
    rewrite EB. exact Hr. }
  assert (Hd : distinct (map row_key ((r0 :: b) ++ flat_map B fs))
               = Row.id f :: distinct (map row_key (flat_map B fs))).
  { simpl. rewrite (Hblock r0 (or_introl eq_refl)). f_equal.
    rewrite distinct_filter. f_equal.
    rewrite map_app, filter_app.
    rewrite (filter_none _ (map row_key b)).
    2:{ intros x Hx. apply in_map_iff in Hx. destruct Hx as [r [<- Hr]].
        rewrite (Hblock r (or_intror Hr)), Z.eqb_refl. reflexivity. }
    rewrite (filter_all _ (map row_key (flat_map B fs))); [reflexivity|].
    intros x Hx. apply in_map_iff in Hx. destruct Hx as [r [<- Hr]].
    apply negb_true_iff, Z.eqb_neq. apply Hrest, Hr. }
  unfold groups.
  change (r0 :: b ++ flat_map B fs) with ((r0 :: b) ++ flat_map B fs).
  rewrite Hd. rewrite <- IH.
  cbn [map]. f_equal.
  - rewrite filter_app.
    rewrite (filter_all _ (r0 :: b)).
    2:{ intros r Hr. apply Z.eqb_eq, Hblock, Hr. }
    rewrite (filter_none _ (flat_map B fs)).
    2:{ intros r Hr. apply Z.eqb_neq, Hrest, Hr. }
    apply app_nil_r.
  - unfold groups. apply map_ext_in.
    intros k Hk. apply (proj1 (distinct_In _ _)) in Hk.
    apply in_map_iff in Hk. destruct Hk as [r [<- Hr]].
    pose proof (Hrest r Hr) as Hne.
    rewrite filter_app. rewrite (filter_none _ (r0 :: b)); [reflexivity|].
    intros r' Hr'. apply Z.eqb_neq.
    rewrite (Hblock r' Hr'). congruence.
Qed.

(** The composed SELECT returns the stored rows that match, each once and
    in table order. *)
Lemma all_matches :
  NoDup (map Row.id (filterset_table db)) ->
  (q_group_by q = [] -> q_joins q = []) ->
  all db q = filter (matches db q) (filterset_table db).
Proof.
  intros Hnd Hj. unfold all, matches.
  rewrite where_rows_blocks.
  destruct (q_group_by q) as [|c cs] eqn:Eg.
  - clear Hnd. unfold row_rows. rewrite (Hj eq_refl). simpl.
    induction (filterset_table db) as [|f fs IH]; simpl; [reflexivity|].
    destruct (forallb (eval_clause db (base_row f)) (q_where q)); simpl;
      rewrite IH; reflexivity.
  - rewrite groups_blocks; [|intros f r; apply row_rows_fs|exact Hnd].
    clear Hnd.
    induction (filterset_table db) as [|f fs IH]; simpl; [reflexivity|].
    pose proof (row_rows_fs f) as Hfs.
    destruct (row_rows db q f) as [|r0 b]; simpl; [exact IH|].
    destruct (forallb (eval_having (r0 :: b)) (q_having q)); simpl;
      [|exact IH].
    rewrite IH. rewrite (Hfs r0 (or_introl eq_refl)). reflexivity.
Qed.

End Locality.

(** ** The shape of the query [from_filters] composes *)

Section Shape.

Lemma from_filters_query_shape board filters :
  Filterset.from_filters_query board filters
  = filter_ (m2m_query board filters) (scalar_clauses filters).
Proof.
  unfold Filterset.from_filters_query, scalar_clauses.
  fold (m2m_step JobType (f_t filters) (filter_ query [Eq ColBoardId (IntV board)])).
  fold (m2m_step JobCategory (f_c filters)
          (m2m_step JobType (f_t filters) (filter_ query [Eq ColBoardId (IntV board)]))).
  fold (m2m_step Tag (f_k filters)
          (m2m_step JobCategory (f_c filters)
             (m2m_step JobType (f_t filters)
                (filter_ query [Eq ColBoardId (IntV board)])))).
  fold (m2m_step Domain (f_d filters)
          (m2m_step Tag (f_k filters)
             (m2m_step JobCategory (f_c filters)
                (m2m_step JobType (f_t filters)
                   (filter_ query [Eq ColBoardId (IntV board)]))))).
  fold (m2m_query board filters).
  generalize (m2m_query board filters) as q0. intros q0.
  destruct (get_truthy (f_l filters)), (get_truthy (f_equity filters)),
    (get_truthy (f_pay filters)), (get_truthy (f_currency filters)),
    (get_truthy (f_q filters)), (get_truthy (f_anywhere filters));
    unfold filter_; simpl; rewrite <- ?app_assoc; reflexivity.
Qed.

Lemma m2m_step_grouped k names q :
  (q_group_by q = [] -> q_joins q = []) ->
  q_group_by (m2m_step k names q) = [] -> q_joins (m2m_step k names q) = [].
Proof.
  unfold m2m_step. destruct (get_truthy names); simpl; auto.
  intros _ H. destruct (q_group_by q); discriminate.
Qed.

Lemma from_filters_query_grouped board filters :
  q_group_by (Filterset.from_filters_query board filters) = [] ->
  q_joins (Filterset.from_filters_query board filters) = [].
Proof.
  rewrite from_filters_query_shape. simpl. unfold m2m_query.
  repeat apply m2m_step_grouped. simpl. reflexivity.
Qed.

(** Every row the SELECT returns comes with a row of FROM ... WHERE. *)
Lemma all_where db q f :
  In f (all db q) -> exists r, In r (where_rows db q) /\ r_fs r = f.
Proof.
  unfold all. destruct (q_group_by q) as [|c cs].
  - intros H. apply in_map_iff in H. destruct H as [r [E H]]. eauto.
  - intros H. apply in_flat_map in H. destruct H as [g [Hg Hf]].
    apply filter_In in Hg. destruct Hg as [Hg _].
    unfold groups in Hg. apply in_map_iff in Hg. destruct Hg as [k [E _]].
    destruct g as [|r g']; simpl in Hf; [contradiction|].
    destruct Hf as [<-|[]]. exists r. split; [|reflexivity].
    assert (Hin : In r (r :: g')) by (left; reflexivity).
    rewrite <- E in Hin. apply filter_In in Hin. tauto.
Qed.

Lemma matched_scalar_clauses db board filters f :
  In f (all db (Filterset.from_filters_query board filters)) ->
  exists r, r_fs r = f /\
            forallb (eval_clause db r) (scalar_clauses filters) = true.
Proof.
  intros H. apply all_where in H. destruct H as [r [Hr E]].
  exists r. split; [exact E|].
  unfold where_rows in Hr. apply filter_In in Hr. destruct Hr as [_ Hw].
  rewrite from_filters_query_shape in Hw. simpl in Hw.
  rewrite forallb_app in Hw. apply andb_true_iff in Hw. tauto.
Qed.

End Shape.

(** ** A many-to-many criterion that is absent or empty *)

Section Absent.

Lemma m2m_step_where k names q c :
  In c (q_where q) -> In c (q_where (m2m_step k names q)).
Proof.
  unfold m2m_step. destruct (get_truthy names); simpl; intros H;
    apply in_or_app; left; exact H.
Qed.

Lemma m2m_step_absent k names q :
  get_truthy names = None ->
  In (NotExistsAssoc k) (q_where (m2m_step k names q)).
Proof.
  unfold m2m_step. intros ->. simpl. apply in_or_app. right. left. reflexivity.
Qed.

Lemma absent_clause board filters k :
  get_truthy (m2m_filter filters k) = None ->
  In (NotExistsAssoc k) (q_where (Filterset.from_filters_query board filters)).
Proof.
  intros H. rewrite from_filters_query_shape. simpl. apply in_or_app. left.
  unfold m2m_query.
  destruct k; simpl in H;
    repeat first [apply m2m_step_absent; exact H | apply m2m_step_where].
Qed.

(** When the list of a kind is absent or empty, a row the lookup matches
    has no association of that kind. *)
Lemma absent_kind_no_association db board filters k f :
  get_truthy (m2m_filter filters k) = None ->
  In f (all db (Filterset.from_filters_query board filters)) ->
  forall a, In a (assoc_table db k) -> filterset_id a <> Row.id f.
Proof.
  intros Habs H. apply all_where in H. destruct H as [r [Hr <-]].
  unfold where_rows in Hr. apply filter_In in Hr. destruct Hr as [_ Hw].
  rewrite forallb_forall in Hw.
  specialize (Hw _ (absent_clause board filters k Habs)). simpl in Hw.
  apply negb_true_iff in Hw.
  intros a Ha E.
  assert (Hex : existsb (fun a => Row.id (r_fs r) =? filterset_id a)
                        (assoc_table db k) = true).
  { apply existsb_exists. exists a. split; [exact Ha|].
    apply Z.eqb_eq. symmetry. exact E. }
  congruence.
Qed.

End Absent.

(** ** At most one row *)

(** C4: [from_filters] returns [None] when no stored row matches the
    composed predicate, the row when exactly one matches, and raises
    [MultipleResultsFound] when two or more match. *)
Theorem from_filters_at_most_one (db : DB) (board : Z) (filters : Filters) :
  NoDup (map Row.id (filterset_table db)) ->
  match filter (matches db (Filterset.from_filters_query board filters))
               (filterset_table db) with
  | [] => Filterset.from_filters db board filters = Ok None
  | [f] => Filterset.from_filters db board filters = Ok (Some f)
  | _ :: _ :: _ =>
      Filterset.from_filters db board filters = Raise MultipleResultsFound
  end.
Proof.
  intros Hnd. unfold Filterset.from_filters.
  rewrite (all_matches db _ Hnd (from_filters_query_grouped board filters)).
  destruct (filter _ _) as [|f [|f' l]]; reflexivity.
Qed.

Lemma from_filters_at_most_one_witness :
  Filterset.from_filters Stored.two_blank 1 no_filters
  = Raise MultipleResultsFound.
Proof.
  refine (from_filters_at_most_one Stored.two_blank 1 no_filters _).
  simpl. constructor.
  - simpl. intros [H|[]]. discriminate H.
  - constructor; [intros [] | constructor].
Defined.

(** ** The pre-save hook *)

Section Hook.

Variable db : DB.
Variable target : Filterset.t.

(** The target as the hook leaves it. *)
Lemma hook_target :
  fst (_format_and_validate db target)
  = if truthy (Filterset.geonameids target)
    then Filterset.set_geonameids target (sorted (Filterset.geonameids target))
    else target.
Proof.
  unfold _format_and_validate.
  destruct (Filterset.from_filters _ _ _) as [[f|]|e]; try reflexivity.
  destruct (id_differs _ _); reflexivity.
Qed.

Lemma hook_geonameids :
  Filterset.geonameids (fst (_format_and_validate db target))
  = sorted (Filterset.geonameids target).
Proof.
  rewrite hook_target.
  destruct (Filterset.geonameids target) eqn:E; simpl; [|reflexivity].
  rewrite E. reflexivity.
Qed.

(** The lookup raises nothing but [MultipleResultsFound]. *)
Lemma from_filters_raises board filters e :
  Filterset.from_filters db board filters = Raise e ->
  e = MultipleResultsFound.
Proof.
  unfold Filterset.from_filters, one_or_none.
  destruct (all db _) as [|x [|y l]]; try discriminate.
  intros H. inversion H. reflexivity.
Qed.

Lemma hook_id :
  Filterset.id (fst (_format_and_validate db target)) = Filterset.id target.
Proof.
  rewrite hook_target. destruct (truthy _); reflexivity.
Qed.

Lemma id_differs_spec (i : Z) (o : option Z) :
  id_differs i o = true <-> Some i <> o.
Proof.
  destruct o as [j|]; simpl.
  - rewrite negb_true_iff, Z.eqb_neq. split; congruence.
  - split; [discriminate | reflexivity].
Qed.

End Hook.

(** The guard of the hook: it raises the validation error exactly when the
    lookup for the target's own criteria returns a row whose id is not the
    target's; when the lookup returns the target's own row the hook does
    not raise. What the lookup returns is another matter. *)
Theorem hook_raises_only_for_other_row (db : DB) (target : Filterset.t) :
  let target' := fst (_format_and_validate db target) in
  let found := Filterset.from_filters db (Filterset.board target')
                                      (Filterset.to_filters target') in
  (forall msg,
      snd (_format_and_validate db target) = Raise (ValueError msg) <->
      msg = collision_message /\
      exists f, found = Ok (Some f) /\ Some (Row.id f) <> Filterset.id target)
  /\ (forall f, found = Ok (Some f) ->
                Filterset.id target = Some (Row.id f) ->
                snd (_format_and_validate db target) = Ok tt).
Proof.
  cbv zeta. rewrite hook_target. unfold _format_and_validate.
  set (t' := if truthy (Filterset.geonameids target) then _ else target).
  assert (Hid : Filterset.id t' = Filterset.id target).
  { unfold t'. destruct (truthy _); reflexivity. }
  destruct (Filterset.from_filters db (Filterset.board t')
                                   (Filterset.to_filters t')) as [[f|]|e] eqn:Ef.
  - rewrite Hid. destruct (id_differs (Row.id f) (Filterset.id target)) eqn:E; simpl.
    + apply id_differs_spec in E. split.
      * intros msg. split.
        -- intros H. inversion H. split; [reflexivity|]. exists f. auto.
        -- intros [-> _]. reflexivity.
      * intros f' H Hi. inversion H; subst f'. congruence.
    + split; [|reflexivity].
      intros msg. split; [discriminate|].
      intros [_ [f' [H Hne]]]. inversion H; subst f'.
      apply id_differs_spec in Hne. congruence.
  - simpl. split.
    + intros msg. split; [discriminate|]. intros [_ [f [H _]]]. discriminate H.
    + intros f H. discriminate H.
  - simpl. split.
    + intros msg. split.
      * intros H. inversion H; subst e.
        apply from_filters_raises in Ef. discriminate Ef.
      * intros [_ [f [H _]]]. discriminate H.
    + intros f H. discriminate H.
Qed.

Lemma hook_raises_only_for_other_row_witness :
  snd (_format_and_validate Stored.one_blank
         (load Stored.one_blank (Stored.row 1 "a"))) = Ok tt.
Proof.
  apply (proj2 (hook_raises_only_for_other_row Stored.one_blank
                  (load Stored.one_blank (Stored.row 1 "a")))
               (Stored.row 1 "a")); reflexivity.
Defined.

(** ** Stored locations are sorted *)

(** C5: whatever the order of the target's [geonameids], a save that goes
    through writes them in ascending order (the same ids, rearranged): the
    row an insert appends, and every row an update replaces; rows that were
    sorted stay sorted, so the whole column is sorted after the save. *)
Theorem geonameids_stored_sorted (db : DB) (target : Filterset.t) (db' : DB) :
  save db target = Ok db' ->
  (Filterset.id target = None ->
     exists row,
       filterset_table db' = filterset_table db ++ [row] /\
       Sorted Z.le (Row.geonameids row) /\
       Permutation (Filterset.geonameids target) (Row.geonameids row))
  /\ (forall i, Filterset.id target = Some i ->
        forall row, In row (filterset_table db') -> Row.id row = i ->
          Sorted Z.le (Row.geonameids row) /\
          Permutation (Filterset.geonameids target) (Row.geonameids row))
  /\ (geonameids_sorted db -> geonameids_sorted db').
Proof.
  pose proof (hook_geonameids db target) as Hg.
  pose proof (hook_id db target) as Hi.
  unfold save.
  destruct (_format_and_validate db target) as [t' [u|e]]; [|discriminate].
  simpl in Hg, Hi. rewrite Hi.
  assert (Hrow : forall i,
             Sorted Z.le (Row.geonameids (row_of i t')) /\
             Permutation (Filterset.geonameids target)
                         (Row.geonameids (row_of i t'))).
  { intros i. simpl. rewrite Hg. split; [apply sorted_ok | apply sorted_perm]. }
  destruct (currency_fits t'); [|discriminate].
  destruct (Filterset.id target) as [i|]; intros H; inversion H; subst db';
    clear H.
  - split; [discriminate|]. split.
    + intros j Hj. inversion Hj; subst j. simpl.
      intros row Hin Hid. apply in_map_iff in Hin. destruct Hin as [r [Hr _]].
      destruct (Row.id r =? i) eqn:E.
      * subst row. apply Hrow.
      * subst row. apply Z.eqb_neq in E. contradiction.
    + unfold geonameids_sorted. simpl. rewrite !Forall_forall.
      intros Hs row Hin. apply in_map_iff in Hin. destruct Hin as [r [Hr Hin]].
      destruct (Row.id r =? i); subst row; [apply Hrow | apply Hs, Hin].
  - split.
    + intros _. simpl. eexists. split; [reflexivity|]. apply Hrow.
    + split; [discriminate|].
      unfold geonameids_sorted. simpl. rewrite !Forall_forall.
      intros Hs row Hin. apply in_app_or in Hin. destruct Hin as [Hin|[<-|[]]].
      * apply Hs, Hin.
      * apply Hrow.
Qed.

Lemma geonameids_stored_sorted_witness :
  exists db',
    save Sample.empty_db Stored.unsorted_target = Ok db' /\
    exists row,
      filterset_table db' = filterset_table Sample.empty_db ++ [row] /\
      Sorted Z.le (Row.geonameids row) /\
      Permutation [1277333; 1264527; 1275339] (Row.geonameids row).
Proof.
  eexists. split.
  - reflexivity.
  - apply (proj1 (geonameids_stored_sorted Sample.empty_db
                    Stored.unsorted_target _ eq_refl)).
    reflexivity.
Defined.

(** ** The migration *)

Section Migration.
Import Alembic.

Lemma has_index_false_filter (s : Schema) (name : string) :
  has_index s name = false ->
  filter (fun i => negb (String.eqb (index_name i) name)) (indexes s)
  = indexes s.
Proof.
  unfold has_index. induction (indexes s) as [|i l IH]; simpl; [reflexivity|].
  intros H. apply orb_false_iff in H. destruct H as [H1 H2].
  rewrite H1. simpl. rewrite IH; auto.
Qed.

End Migration.

(** C8: on a schema that has [jobpost.datetime] and no index of that name,
    [upgrade] adds the index [ix_jobpost_datetime] on column [datetime] of
    table [jobpost] with [unique=False] and changes nothing else, and
    [downgrade] then drops that index and gives back the schema as it
    was. *)
Theorem upgrade_then_downgrade (s : Alembic.Schema) :
  Alembic.has_columns s "jobpost" ["datetime"] = true ->
  Alembic.has_index s "ix_jobpost_datetime" = false ->
  exists s',
    Alembic.upgrade s = Ok s' /\
    Alembic.tables s' = Alembic.tables s /\
    Alembic.indexes s' =
      Alembic.indexes s ++
        [{| Alembic.index_name := "ix_jobpost_datetime";
            Alembic.table_name := "jobpost";
            Alembic.columns := ["datetime"];
            Alembic.unique := false |}] /\
    Alembic.downgrade s' = Ok s.
Proof.
  intros Hc Hi. unfold Alembic.upgrade, Alembic.create_index, Alembic.f.
  rewrite Hc, Hi. simpl. eexists. split; [reflexivity|].
  simpl. split; [reflexivity|]. split; [reflexivity|].
  unfold Alembic.downgrade, Alembic.drop_index, Alembic.f, Alembic.has_index.
  simpl. rewrite existsb_app. simpl. rewrite orb_true_r.
  rewrite filter_app. simpl.
  rewrite (has_index_false_filter s _ Hi), app_nil_r.
  destruct s; reflexivity.
Qed.

Lemma upgrade_then_downgrade_witness :
  exists s',
    Alembic.upgrade
      {| Alembic.tables :=
           [{| Alembic.tbl_name := "jobpost";
               Alembic.tbl_columns := ["id"; "datetime"; "headline"] |}];
         Alembic.indexes := [] |} = Ok s' /\
    Alembic.tables s' =
      [{| Alembic.tbl_name := "jobpost";
          Alembic.tbl_columns := ["id"; "datetime"; "headline"] |}] /\
    Alembic.indexes s' =
      [{| Alembic.index_name := "ix_jobpost_datetime";
          Alembic.table_name := "jobpost";
          Alembic.columns := ["datetime"];
          Alembic.unique := false |}] /\
    Alembic.downgrade s' =
      Ok {| Alembic.tables :=
              [{| Alembic.tbl_name := "jobpost";
                  Alembic.tbl_columns := ["id"; "datetime"; "headline"] |}];
            Alembic.indexes := [] |}.
Proof.
  apply (upgrade_then_downgrade
           {| Alembic.tables :=
                [{| Alembic.tbl_name := "jobpost";
                    Alembic.tbl_columns := ["id"; "datetime"; "headline"] |}];
              Alembic.indexes := [] |}); reflexivity.
Defined.

(** ** No filter keys at all *)

Section NoFilters.

Variable db : DB.

Lemma not_exists_assoc (f : Row.t) (k : kind) :
  negb (existsb (fun a => Row.id f =? filterset_id a) (assoc_table db k)) = true
  <-> (forall a, In a (assoc_table db k) -> filterset_id a <> Row.id f).
Proof.
  rewrite negb_true_iff. split.
  - intros H a Ha E.
    assert (Hex : existsb (fun a => Row.id f =? filterset_id a)
                          (assoc_table db k) = true).
    { apply existsb_exists. exists a. split; [exact Ha|].
      apply Z.eqb_eq. symmetry. exact E. }
    congruence.
  - intros H. destruct (existsb _ _) eqn:E; [|reflexivity].
    apply existsb_exists in E. destruct E as [a [Ha E]].
    apply Z.eqb_eq in E. exfalso. apply (H a Ha). symmetry. exact E.
Qed.

Lemma no_filters_where (board : Z) (f : Row.t) :
  forallb (eval_clause db (base_row f))
          (q_where (Filterset.from_filters_query board no_filters)) = true
  <-> Row.board_id f = board /\ no_criteria db f.
Proof.
  unfold no_criteria. cbn -[Z.eqb String.eqb existsb].
  rewrite !andb_true_iff.
  rewrite !not_exists_assoc, Z.eqb_eq.
  split.
  - intros (Hb & Ht & Hc & Hk & Hd & Hl & He & Hp & Hcur & Hq & Hr & _).
    split; [exact Hb|].
    split. { intros [] a; auto. }
    destruct (Row.geonameids f); [|discriminate Hl].
    destruct (Row.equity f); [discriminate He|].
    destruct (Row.remote_location f); [discriminate Hr|].
    destruct (Row.pay_cash f); [discriminate Hp|].
    destruct (Row.pay_currency f); [discriminate Hcur|].
    apply String.eqb_eq in Hq. auto 10.
  - intros (Hb & Hm & Hl & He & Hr & Hp & Hcur & Hq).
    rewrite Hl, He, Hr, Hp, Hcur, Hq. simpl.
    repeat split; auto; apply Hm.
Qed.

Lemma no_filters_all (board : Z) (f : Row.t) :
  In f (all db (Filterset.from_filters_query board no_filters))
  <-> In f (filterset_table db) /\ Row.board_id f = board /\ no_criteria db f.
Proof.
  rewrite <- no_filters_where.
  unfold all, where_rows, from_rows.
  change (q_group_by (Filterset.from_filters_query board no_filters))
    with (@nil group_col).
  change (q_joins (Filterset.from_filters_query board no_filters))
    with (@nil join_target).
  simpl joined. rewrite in_map_iff. split.
  - intros [r [E Hr]]. apply filter_In in Hr. destruct Hr as [Hr Hw].
    apply in_map_iff in Hr. destruct Hr as [f' [<- Hf']].
    simpl in E. subst f'. auto.
  - intros [Hf Hw]. exists (base_row f). split; [reflexivity|].
    apply filter_In. split; [apply in_map; exact Hf | exact Hw].
Qed.

End NoFilters.

(** C7: with every filter key omitted, the rows the lookup matches are
    exactly the board's filtersets with no type, category, tag or domain
    association, no geonameids, [equity] and [remote_location] false, NULL
    [pay_cash] and [pay_currency] and empty [keywords]; so the row
    [from_filters] returns is such a row, and a row with any criterion set
    is never returned. *)
Theorem omitting_all_keys (db : DB) (board : Z) :
  (forall f,
      In f (all db (Filterset.from_filters_query board no_filters)) <->
      In f (filterset_table db) /\ Row.board_id f = board /\ no_criteria db f)
  /\ (forall f,
        Filterset.from_filters db board no_filters = Ok (Some f) ->
        In f (filterset_table db) /\ Row.board_id f = board /\ no_criteria db f)
  /\ (forall f,
        ~ no_criteria db f ->
        Filterset.from_filters db board no_filters <> Ok (Some f)).
Proof.
  assert (Hret : forall f,
             Filterset.from_filters db board no_filters = Ok (Some f) ->
             In f (all db (Filterset.from_filters_query board no_filters))).
  { intros f. unfold Filterset.from_filters, one_or_none.
    destruct (all db _) as [|x [|y l]]; try discriminate.
    intros H. inversion H. left. reflexivity. }
  split; [intros f; apply no_filters_all|].
  split.
  - intros f H. apply no_filters_all, Hret, H.
  - intros f Hn H. apply Hret, no_filters_all in H. tauto.
Qed.

Lemma omitting_all_keys_witness :
  In (Stored.row 1 "a") (filterset_table Stored.one_blank)
  /\ Row.board_id (Stored.row 1 "a") = 1
  /\ no_criteria Stored.one_blank (Stored.row 1 "a").
Proof.
  apply (proj1 (proj2 (omitting_all_keys Stored.one_blank 1))).
  reflexivity.
Defined.

(** ** Scalar criteria *)

(** C6, as amended: a row the lookup matches has, for each scalar
    criterion, the supplied value when the criterion is supplied (a truthy
    value; pay and currency only together; the currency, a [CHAR(3)]
    column, equal to the supplied string up to trailing blanks), and
    otherwise the column's unset value: [False] for [equity] and
    [remote_location], NULL for [pay_cash] and [pay_currency], the empty
    string for [keywords]. *)
Theorem scalar_criteria_policy (db : DB) (board : Z) (filters : Filters)
        (f : Row.t) :
  In f (all db (Filterset.from_filters_query board filters)) ->
  Row.equity f = truthy (f_equity filters)
  /\ Row.remote_location f = truthy (f_anywhere filters)
  /\ match get_truthy (f_pay filters), get_truthy (f_currency filters) with
     | Some pay, Some currency =>
         Row.pay_cash f = Some pay
         /\ exists c, Row.pay_currency f = Some c /\ char3_is c currency
     | _, _ => Row.pay_cash f = None /\ Row.pay_currency f = None
     end
  /\ Row.keywords f = match get_truthy (f_q filters) with
                      | Some q => q
                      | None => ""
                      end.
Proof.
  intros H. apply matched_scalar_clauses in H.
  destruct H as [r [<- Hw]].
  unfold scalar_clauses in Hw. rewrite !forallb_app in Hw.
  apply andb_true_iff in Hw. destruct Hw as [Hle Hw].
  apply andb_true_iff in Hw. destruct Hw as [Hpay Hqa].
  cbn [forallb] in Hle, Hqa.
  apply andb_true_iff in Hle. destruct Hle as [_ He].
  apply andb_true_iff in He. destruct He as [He _].
  apply andb_true_iff in Hqa. destruct Hqa as [Hq Ha].
  apply andb_true_iff in Ha. destruct Ha as [Ha _].
  split; [|split; [|split]].
  - destruct (f_equity filters) as [[|]|]; cbn in He |- *;
      destruct (Row.equity (r_fs r)); cbn in He;
      first [discriminate He | reflexivity].
  - destruct (f_anywhere filters) as [[|]|]; cbn in Ha |- *;
      destruct (Row.remote_location (r_fs r)); cbn in Ha;
      first [discriminate Ha | reflexivity].
  - destruct (get_truthy (f_pay filters)) as [pay|],
             (get_truthy (f_currency filters)) as [currency|];
      cbn [forallb] in Hpay;
      apply andb_true_iff in Hpay; destruct Hpay as [Hz Hs];
      apply andb_true_iff in Hs; destruct Hs as [Hs _];
      unfold eval_clause, column_value in Hz, Hs;
      destruct (Row.pay_cash (r_fs r)) as [z|],
               (Row.pay_currency (r_fs r)) as [s|];
      cbn [sql_eq sql_is] in Hz, Hs;
      try discriminate Hz; try discriminate Hs; auto.
    apply Z.eqb_eq in Hz. apply String.eqb_eq in Hs. subst z.
    split; [reflexivity|]. exists s. split; [reflexivity | exact Hs].
  - destruct (get_truthy (f_q filters)) as [kw|]; cbn in Hq;
      apply String.eqb_eq in Hq; exact Hq.
Qed.

Lemma scalar_criteria_policy_witness :
  Row.equity More.busy_row = true
  /\ Row.remote_location More.busy_row = true
  /\ (Row.pay_cash More.busy_row = Some 100
      /\ exists c, Row.pay_currency More.busy_row = Some c /\ char3_is c "US")
  /\ Row.keywords More.busy_row = "python".
Proof.
  apply (scalar_criteria_policy More.busy_db 1 More.busy_filters
           More.busy_row).
  left. reflexivity.
Defined.

(** C6, as stated, fails on the filterset with nothing set: the lookup
    with no key returns it, its [equity], [remote_location] and [keywords]
    columns are not NULL, and the WHERE clause tests them against [False]
    and the empty string, not against NULL. *)
Lemma absent_scalar_is_not_a_null_check :
  Filterset.from_filters Stored.one_blank 1 no_filters
  = Ok (Some (Stored.row 1 "a"))
  /\ column_value (Stored.row 1 "a") ColEquity = BoolV false
  /\ column_value (Stored.row 1 "a") ColRemoteLocation = BoolV false
  /\ column_value (Stored.row 1 "a") ColKeywords = TextV ""
  /\ ~ (forall db board f c,
          In c [ColPayCash; ColPayCurrency; ColEquity; ColRemoteLocation;
                ColKeywords] ->
          Filterset.from_filters db board no_filters = Ok (Some f) ->
          column_value f c = Null).
Proof.
  repeat split.
  intros H.
  specialize (H Stored.one_blank 1 (Stored.row 1 "a") ColEquity).
  simpl in H. discriminate H; auto.
Qed.

(** ** Counting matched associations *)

Section Counting.

Variable db : DB.
Variable k : kind.

Lemma kind_eqb_refl : kind_eqb k k = true.
Proof. destruct k; reflexivity. Qed.

(** Joining the association table and the entity table of one kind
    pairs the filterset with the entities its relationship loads. *)
Lemma joined_related (f : Row.t) :
  map (fun r => r_entity r k)
      (joined db [AssocTable k; Entity k] [base_row f])
  = map Some (related db k (Row.id f)).
Proof.
  unfold joined, related. cbn [fold_left flat_map]. rewrite app_nil_r.
  cbn [join_step base_row r_fs r_assoc r_entity].
  induction (filter (fun a => Row.id f =? filterset_id a) (assoc_table db k))
    as [|a l IH]; [reflexivity|].
  cbn [map flat_map]. rewrite !map_app, IH. f_equal.
  cbn [join_step r_assoc r_fs r_entity]. unfold upd at 1.
  rewrite kind_eqb_refl. rewrite !map_map. apply map_ext.
  intros e. cbn [r_entity]. unfold upd. rewrite kind_eqb_refl. reflexivity.
Qed.

Lemma NoDup_map_filter {A B} (g : A -> B) (p : A -> bool) (l : list A) :
  NoDup (map g l) -> NoDup (map g (filter p l)).
Proof.
  induction l as [|x l IH]; simpl; intros H; [constructor|].
  inversion H as [|? ? Hn Hnd]; subst.
  destruct (p x); simpl; auto.
  constructor; auto.
  intros Hin. apply Hn. apply in_map_iff in Hin.
  destruct Hin as [y [E Hy]]. apply filter_In in Hy.
  apply in_map_iff. exists y. tauto.
Qed.

Lemma NoDup_map_inj {A B} (g : A -> B) (l : list A) x y :
  NoDup (map g l) -> In x l -> In y l -> g x = g y -> x = y.
Proof.
  induction l as [|z l IH]; simpl; intros H Hx Hy E; [contradiction|].
  inversion H as [|? ? Hn Hnd]; subst.
  destruct Hx as [->|Hx], Hy as [->|Hy]; auto.
  - exfalso. apply Hn. rewrite E. apply in_map. exact Hy.
  - exfalso. apply Hn. rewrite <- E. apply in_map. exact Hx.
Qed.

Hypothesis names_unique : NoDup (map ent_name (entity_table db k)).
Hypothesis assoc_key : NoDup (assoc_table db k).

(** The names a relationship loads are pairwise distinct. *)
Lemma related_names_NoDup (fid : Z) :
  NoDup (map ent_name (related db k fid)).
Proof.
  unfold related.
  pose proof names_unique as Hnames. pose proof assoc_key as Hkey.
  revert Hkey. induction (assoc_table db k) as [|a l IH]; intros Hkey.
  - constructor.
  - inversion Hkey as [|? ? Hn Hnd]; subst. cbn [filter].
    destruct (fid =? filterset_id a) eqn:Ea; [|apply IH; exact Hnd].
    cbn [flat_map]. rewrite map_app. apply NoDup_app.
    + apply NoDup_map_filter. exact Hnames.
    + apply IH; exact Hnd.
    + intros n Hin Hin'.
      apply in_map_iff in Hin. destruct Hin as [e [En He]].
      apply filter_In in He. destruct He as [He Hid].
      apply in_map_iff in Hin'. destruct Hin' as [e' [En' He']].
      apply in_flat_map in He'. destruct He' as [a' [Ha' He']].
      apply filter_In in Ha'. destruct Ha' as [Ha' Ea'].
      apply filter_In in He'. destruct He' as [He' Hid'].
      assert (e = e') by (apply (NoDup_map_inj ent_name _ e e' Hnames);
                          congruence).
      subst e'. apply Z.eqb_eq in Ea, Ea', Hid, Hid'.
      apply Hn. replace a with a'; [exact Ha'|].
      destruct a, a'; simpl in *; congruence.
Qed.

Lemma filter_length_impl {A} (p p' : A -> bool) (l : list A) :
  (forall x, p x = true -> p' x = true) ->
  (List.length (filter p l) <= List.length (filter p' l))%nat.
Proof.
  intros H. induction l as [|x l IH]; simpl; [lia|].
  destruct (p x) eqn:E.
  - rewrite (H x E). simpl. lia.
  - destruct (p' x); simpl; lia.
Qed.

(** A list of names with a repetition is longer than the number of
    joined rows of any filterset that pass [NameIn]. *)
Lemma matched_rows_lt (f : Row.t) (names : list string) (q : Query) :
  q_joins q = [AssocTable k; Entity k] ->
  In (NameIn k names) (q_where q) ->
  ~ NoDup names ->
  (List.length (row_rows db q f) < List.length names)%nat.
Proof.
  intros Hj Hw Hdup.
  set (p' := fun oe : option Named =>
               match oe with
               | Some e => existsb (String.eqb (ent_name e)) names
               | None => false
               end).
  set (L := filter (fun e => existsb (String.eqb (ent_name e)) names)
                   (related db k (Row.id f))).
  assert (Hle : (List.length (row_rows db q f) <= List.length L)%nat).
  { unfold row_rows. rewrite Hj.
    eapply Nat.le_trans.
    - apply (filter_length_impl _ (fun r => p' (r_entity r k))).
      intros r Hr. rewrite forallb_forall in Hr.
      apply (Hr (NameIn k names) Hw).
    - rewrite <- (length_map (fun r => r_entity r k)).
      rewrite <- filter_map_swap, joined_related, filter_map_swap.
      rewrite length_map. apply Nat.le_refl. }
  assert (Hnd : NoDup (map ent_name L)).
  { apply NoDup_map_filter, related_names_NoDup. }
  assert (Hincl : incl (map ent_name L) names).
  { intros n Hn. apply in_map_iff in Hn. destruct Hn as [e [<- He]].
    apply filter_In in He. destruct He as [_ He].
    apply existsb_exists in He. destruct He as [n [Hn E]].
    apply String.eqb_eq in E. rewrite E. exact Hn. }
  destruct (Nat.le_gt_cases (List.length names) (List.length (map ent_name L)))
    as [Hge|Hlt].
  - exfalso. apply Hdup. exact (NoDup_incl_NoDup Hnd Hge Hincl).
  - rewrite length_map in Hlt. lia.
Qed.

End Counting.

(** ** Duplicate names in a many-to-many list *)

Section Duplicates.

Variable board : Z.
Variable filters : Filters.
Variable k : kind.
Variable names : list string.

Hypothesis supplied : m2m_filter filters k = Some names.
Hypothesis repeated : ~ NoDup names.
Hypothesis alone :
  forall k', k' <> k -> get_truthy (m2m_filter filters k') = None.

Lemma repeated_truthy : get_truthy (Some names) = Some names.
Proof.
  destruct names; [|reflexivity]. exfalso. apply repeated. constructor.
Qed.

Lemma alone_query :
  let q := Filterset.from_filters_query board filters in
  q_joins q = [AssocTable k; Entity k]
  /\ q_group_by q = [FiltersetId]
  /\ q_having q = [CountEq k (List.length names)]
  /\ In (NameIn k names) (q_where q).
Proof.
  cbv zeta. rewrite from_filters_query_shape. unfold m2m_query, m2m_step.
  pose proof repeated_truthy as Ht.
  pose proof (alone JobType) as H1. pose proof (alone JobCategory) as H2.
  pose proof (alone Tag) as H3. pose proof (alone Domain) as H4.
  pose proof supplied as Hs.
  destruct k; simpl in H1, H2, H3, H4, Hs; rewrite Hs, Ht;
    try (rewrite H1 by discriminate); try (rewrite H2 by discriminate);
    try (rewrite H3 by discriminate); try (rewrite H4 by discriminate);
    simpl; repeat split; auto 10.
Qed.

End Duplicates.

(** C9, as amended: when one many-to-many list has a repeated name and no
    other many-to-many list is supplied, the HAVING clause compares the
    count of matched associations with the raw length of that list, no
    filterset passes it, and [from_filters] returns [None] (names of the
    entities being unique and the association table keyed by its pair). *)
Theorem duplicate_names_alone_match_nothing
        (db : DB) (board : Z) (filters : Filters) (k : kind)
        (names : list string) :
  NoDup (map Row.id (filterset_table db)) ->
  NoDup (map ent_name (entity_table db k)) ->
  NoDup (assoc_table db k) ->
  m2m_filter filters k = Some names ->
  ~ NoDup names ->
  (forall k', k' <> k -> get_truthy (m2m_filter filters k') = None) ->
  q_having (Filterset.from_filters_query board filters)
  = [CountEq k (List.length names)]
  /\ Filterset.from_filters db board filters = Ok None.
Proof.
  intros Hid Hnames Hkey Hs Hdup Halone.
  destruct (alone_query board filters k names Hs Hdup Halone)
    as (Hj & Hg & Hh & Hw).
  split; [exact Hh|].
  unfold Filterset.from_filters.
  rewrite (all_matches db _ Hid (from_filters_query_grouped board filters)).
  rewrite filter_none; [reflexivity|].
  intros f _. unfold matches. rewrite Hg, Hh. cbn [forallb eval_having].
  pose proof (matched_rows_lt db k Hnames Hkey f names _ Hj Hw Hdup) as Hlt.
  pose proof (filter_length_le (fun r => is_some (r_assoc r k))
                (row_rows db (Filterset.from_filters_query board filters) f))
    as Hle.
  destruct (Nat.eqb _ _) eqn:E.
  - apply Nat.eqb_eq in E. lia.
  - rewrite andb_false_r. reflexivity.
Qed.

Lemma duplicate_names_alone_match_nothing_witness :
  q_having (Filterset.from_filters_query 1
              (Cases.only_types ["fulltime"; "fulltime"]))
  = [CountEq JobType 2]
  /\ Filterset.from_filters Cases.one_type 1
       (Cases.only_types ["fulltime"; "fulltime"]) = Ok None.
Proof.
  apply (duplicate_names_alone_match_nothing Cases.one_type 1
           (Cases.only_types ["fulltime"; "fulltime"]) JobType
           ["fulltime"; "fulltime"]).
  - simpl. constructor; [intros [] | constructor].
  - simpl. constructor.
    + intros [H|[]]. discriminate H.
    + constructor; [intros [] | constructor].
  - simpl. constructor; [intros [] | constructor].
  - reflexivity.
  - intros H. inversion H as [|? ? Hn _]. apply Hn. left. reflexivity.
  - intros k' Hne. destruct k'; [exfalso; apply Hne|..]; reflexivity.
Defined.

(** C9, as stated, fails when another many-to-many list is supplied: the
    joined rows of the two kinds multiply, the count for the types is 1 * 2
    and equals the raw length of the list with the repetition, and the
    filterset whose types are exactly the de-duplicated names is
    returned. *)
Lemma duplicate_names_match_with_other_criterion :
  Filterset.from_filters Cases.one_by_two 1
    (Cases.types_and_categories ["fulltime"; "fulltime"]
                                ["programming"; "design"])
  = Ok (Some (Stored.row 1 "a"))
  /\ map ent_name (related Cases.one_by_two JobType 1) = ["fulltime"]
  /\ map ent_name (related Cases.one_by_two JobCategory 1)
     = ["programming"; "design"].
Proof. repeat split. Qed.

(** ** Where the count test is not an exact match *)

(** The sample state is what a save writes on an empty database. *)
Lemma two_by_two_inserted :
  exists db',
    save Sample.empty_db (Cases.new_two_by_two "a") = Ok db'
    /\ filterset_table db' = filterset_table Cases.two_by_two
    /\ forall k, assoc_table db' k = assoc_table Cases.two_by_two k.
Proof.
  eexists. split; [reflexivity|]. split; [reflexivity|].
  intros []; reflexivity.
Qed.

(** C1 at the failing input: the filters name one job type, the stored
    filterset has that type and one more, and [from_filters] returns it:
    the count of matched associations is 1, the length of the list. *)
Example superset_of_types_matches :
  Filterset.from_filters Cases.two_types 1 (Cases.only_types ["fulltime"])
  = Ok (Some (Stored.row 1 "a"))
  /\ map ent_name (related Cases.two_types JobType 1)
     = ["fulltime"; "contract"].
Proof. split; reflexivity. Qed.

(** C2 at the failing input: a persisted filterset with two job types and
    two categories is not found from its own [to_filters()]: its joined
    rows number 2 * 2, and both counts are compared with 2. *)
Example own_filters_not_found :
  Filterset.to_filters (load Cases.two_by_two (Stored.row 1 "a"))
  = {| f_t := Some ["fulltime"; "contract"];
       f_c := Some ["programming"; "design"];
       f_k := Some []; f_d := Some []; f_l := Some [];
       f_currency := None; f_pay := None; f_equity := Some false;
       f_anywhere := Some false; f_q := Some "" |}
  /\ Filterset.from_filters Cases.two_by_two 1
       (Filterset.to_filters (load Cases.two_by_two (Stored.row 1 "a")))
     = Ok None.
Proof. split; reflexivity. Qed.

(** C3 at the failing input: a new filterset with the criteria of the
    stored one, on the same board, passes the hook and is written. *)
Example colliding_insert_accepted :
  Filterset.board (Cases.new_two_by_two "b")
  = Row.board_id (Stored.row 1 "a")
  /\ Filterset.to_filters (Cases.new_two_by_two "b")
     = Filterset.to_filters (load Cases.two_by_two (Stored.row 1 "a"))
  /\ snd (_format_and_validate Cases.two_by_two (Cases.new_two_by_two "b"))
     = Ok tt
  /\ exists db',
       save Cases.two_by_two (Cases.new_two_by_two "b") = Ok db'
       /\ filterset_table db' = [Stored.row 1 "a"; Stored.row 2 "b"].
Proof.
  repeat split. eexists. split; reflexivity.
Qed.

(** * Further properties of the code *)

(** ** More on [sorted] *)

Section SortedMore.

Lemma insert_sorted_comm (x y : Z) (l : list Z) :
  insert_sorted x (insert_sorted y l) = insert_sorted y (insert_sorted x l).
Proof.
  induction l as [|z l IH]; simpl.
  - destruct (x <=? y) eqn:Exy, (y <=? x) eqn:Eyx; try reflexivity.
    + apply Z.leb_le in Exy, Eyx. f_equal; [lia | f_equal; lia].
    + apply Z.leb_gt in Exy, Eyx. lia.
  - destruct (y <=? z) eqn:Eyz, (x <=? z) eqn:Exz; simpl;
      rewrite ?Eyz, ?Exz;
      destruct (x <=? y) eqn:Exy, (y <=? x) eqn:Eyx; simpl;
      rewrite ?Eyz, ?Exz; try reflexivity;
      try apply Z.leb_le in Exy; try apply Z.leb_le in Eyx;
      try apply Z.leb_le in Eyz; try apply Z.leb_le in Exz;
      try apply Z.leb_gt in Exy; try apply Z.leb_gt in Eyx;
      try apply Z.leb_gt in Eyz; try apply Z.leb_gt in Exz;
      try lia;
      try (f_equal; [lia | f_equal; lia]);
      try (f_equal; exact IH).
Qed.

Lemma sorted_permutation (l l' : list Z) :
  Permutation l l' -> sorted l = sorted l'.
Proof.
  induction 1 as [|x l l' _ IH|x y l|l l' l'' _ IH1 _ IH2]; simpl.
  - reflexivity.
  - rewrite IH. reflexivity.
  - apply insert_sorted_comm.
  - congruence.
Qed.

Lemma sorted_of_sorted (l : list Z) : Sorted Z.le l -> sorted l = l.
Proof.
  induction 1 as [|x l Hs IH Hhd]; simpl; [reflexivity|].
  rewrite IH. destruct Hhd as [|y l' Hxy]; simpl; [reflexivity|].
  apply Z.leb_le in Hxy. rewrite Hxy. reflexivity.
Qed.

Lemma sorted_idempotent (l : list Z) : sorted (sorted l) = sorted l.
Proof. apply sorted_of_sorted, sorted_ok. Qed.

Lemma sorted_nonempty (l : list Z) : truthy l = true -> truthy (sorted l) = true.
Proof.
  destruct l as [|x l]; [discriminate|]. intros _.
  pose proof (sorted_perm (x :: l)) as Hp.
  destruct (sorted (x :: l)); [|reflexivity].
  apply Permutation_sym, Permutation_nil in Hp. discriminate Hp.
Qed.

End SortedMore.

(** ** Truth values *)

Section Truth.

Lemma get_truthy_idempotent {A} `{Truthy A} (o : option A) :
  get_truthy (get_truthy o) = get_truthy o.
Proof.
  destruct o as [a|]; simpl; [|reflexivity].
  destruct (truthy a) eqn:E; simpl; [rewrite E|]; reflexivity.
Qed.

Lemma get_truthy_some {A} `{Truthy A} (o : option A) (a : A) :
  get_truthy o = Some a -> o = Some a /\ truthy a = true.
Proof.
  destruct o as [b|]; simpl; [|discriminate].
  destruct (truthy b) eqn:E; [|discriminate].
  intros Heq. inversion Heq; subst. auto.
Qed.

Lemma get_truthy_keep {A} `{Truthy A} (o : option A) (a : A) :
  get_truthy o = Some a -> get_truthy (Some a) = Some a.
Proof.
  intros Heq. apply get_truthy_some in Heq. destruct Heq as [_ Ht].
  simpl. rewrite Ht. reflexivity.
Qed.

End Truth.

(** ** What a returned row always satisfies *)

Section Returned.

Variable db : DB.
Variable board : Z.
Variable filters : Filters.

Lemma returned_in_all (f : Row.t) :
  Filterset.from_filters db board filters = Ok (Some f) ->
  In f (all db (Filterset.from_filters_query board filters)).
Proof.
  unfold Filterset.from_filters, one_or_none.
  destruct (all db _) as [|x [|y l]]; try discriminate.
  intros Heq. inversion Heq. left. reflexivity.
Qed.

Lemma all_stored (q : Query) (f : Row.t) :
  In f (all db q) -> In f (filterset_table db).
Proof.
  intros Hin. apply all_where in Hin. destruct Hin as [r [Hr <-]].
  unfold where_rows, from_rows in Hr. apply filter_In in Hr.
  destruct Hr as [Hr _]. apply joined_fs in Hr.
  destruct Hr as [r0 [Hr0 ->]]. apply in_map_iff in Hr0.
  destruct Hr0 as [f0 [<- Hf0]]. exact Hf0.
Qed.

Lemma board_clause :
  In (Eq ColBoardId (IntV board))
     (q_where (Filterset.from_filters_query board filters)).
Proof.
  rewrite from_filters_query_shape. simpl. apply in_or_app. left.
  unfold m2m_query. repeat apply m2m_step_where. left. reflexivity.
Qed.

Lemma matched_board (f : Row.t) :
  In f (all db (Filterset.from_filters_query board filters)) ->
  Row.board_id f = board.
Proof.
  intros Hin. apply all_where in Hin. destruct Hin as [r [Hr <-]].
  unfold where_rows in Hr. apply filter_In in Hr. destruct Hr as [_ Hw].
  rewrite forallb_forall in Hw. specialize (Hw _ board_clause).
  simpl in Hw. apply Z.eqb_eq in Hw. exact Hw.
Qed.

End Returned.

(** X1: the filterset [from_filters] returns is a stored row of the board
    it was asked for, whatever the filters. *)
Theorem from_filters_board_scoped (db : DB) (board : Z) (filters : Filters)
        (f : Row.t) :
  Filterset.from_filters db board filters = Ok (Some f) ->
  In f (filterset_table db) /\ Row.board_id f = board.
Proof.
  intros Hret. apply returned_in_all in Hret. split.
  - eapply all_stored. exact Hret.
  - eapply matched_board. exact Hret.
Qed.

Lemma from_filters_board_scoped_witness :
  In (Stored.row 1 "a") (filterset_table Cases.two_types)
  /\ Row.board_id (Stored.row 1 "a") = 1.
Proof.
  apply (from_filters_board_scoped Cases.two_types 1
           (Cases.only_types ["fulltime"])).
  reflexivity.
Defined.

(** X2: the geonameids of a row the lookup matches are the supplied
    locations in ascending order, or none when the locations are absent or
    empty: a stored row whose geonameids are not in ascending order is
    matched by no filters at all. *)
Theorem matched_geonameids (db : DB) (board : Z) (filters : Filters)
        (f : Row.t) :
  In f (all db (Filterset.from_filters_query board filters)) ->
  Row.geonameids f = match get_truthy (f_l filters) with
                     | Some l => sorted l
                     | None => []
                     end
  /\ Sorted Z.le (Row.geonameids f).
Proof.
  intros Hin. apply matched_scalar_clauses in Hin.
  destruct Hin as [r [<- Hw]].
  unfold scalar_clauses in Hw. rewrite !forallb_app in Hw.
  apply andb_true_iff in Hw. destruct Hw as [Hl _].
  cbn [forallb] in Hl. apply andb_true_iff in Hl. destruct Hl as [Hl _].
  assert (Heq : Row.geonameids (r_fs r)
                = match get_truthy (f_l filters) with
                  | Some l => sorted l
                  | None => []
                  end).
  { destruct (get_truthy (f_l filters)) as [l|]; cbn in Hl;
      apply list_eqb_eq in Hl; exact Hl. }
  split; [exact Heq|]. rewrite Heq.
  destruct (get_truthy (f_l filters)); [apply sorted_ok | constructor].
Qed.

Lemma matched_geonameids_witness :
  Row.geonameids More.cities_row = [1264527; 1275339; 1277333]
  /\ Sorted Z.le (Row.geonameids More.cities_row).
Proof.
  apply (matched_geonameids More.cities_db 1
           (More.only_locations [1277333; 1264527; 1275339])
           More.cities_row).
  left. reflexivity.
Defined.

(** X3: the order in which the locations are supplied does not matter:
    two filters that differ only by a rearrangement of ['l'] compose the
    same query and get the same answer. *)
Theorem location_order_irrelevant (db : DB) (board : Z) (filters : Filters)
        (l l' : list Z) :
  Permutation l l' ->
  Filterset.from_filters_query board (with_l filters (Some l))
  = Filterset.from_filters_query board (with_l filters (Some l'))
  /\ Filterset.from_filters db board (with_l filters (Some l))
     = Filterset.from_filters db board (with_l filters (Some l')).
Proof.
  intros Hp.
  assert (Hq : Filterset.from_filters_query board (with_l filters (Some l))
               = Filterset.from_filters_query board (with_l filters (Some l'))).
  { rewrite !from_filters_query_shape. unfold m2m_query, scalar_clauses.
    cbn [with_l f_t f_c f_k f_d f_l f_currency f_pay f_equity f_anywhere f_q].
    destruct l as [|x l], l' as [|x' l'].
    - reflexivity.
    - apply Permutation_nil in Hp. discriminate Hp.
    - apply Permutation_sym, Permutation_nil in Hp. discriminate Hp.
    - cbn [get_truthy truthy truthy_list].
      rewrite (sorted_permutation _ _ Hp). reflexivity. }
  split; [exact Hq|].
  unfold Filterset.from_filters. rewrite Hq. reflexivity.
Qed.

Lemma location_order_irrelevant_witness :
  Filterset.from_filters More.cities_db 1
    (with_l no_filters (Some [1277333; 1264527; 1275339]))
  = Filterset.from_filters More.cities_db 1
      (with_l no_filters (Some [1275339; 1277333; 1264527])).
Proof.
  apply (location_order_irrelevant More.cities_db 1 no_filters
           [1277333; 1264527; 1275339] [1275339; 1277333; 1264527]).
  apply perm_trans with (l' := [1277333; 1275339; 1264527]).
  - apply perm_skip. apply perm_swap.
  - apply perm_swap.
Defined.

(** X4: a falsy value under a key (an empty list, [False], 0, the empty
    string, [None]) is the same to [from_filters] as the key being absent,
    and so is a pay amount without a currency or a currency without a pay
    amount: dropping them leaves the composed query unchanged. *)
Theorem falsy_is_absent (board : Z) (filters : Filters) :
  Filterset.from_filters_query board (drop_falsy filters)
  = Filterset.from_filters_query board filters.
Proof.
  unfold Filterset.from_filters_query, drop_falsy.
  cbn [f_t f_c f_k f_d f_l f_currency f_pay f_equity f_anywhere f_q].
  rewrite !get_truthy_idempotent.
  destruct (get_truthy (f_pay filters)) as [pay|] eqn:Ep;
    destruct (get_truthy (f_currency filters)) as [currency|] eqn:Ec;
    try reflexivity.
  rewrite (get_truthy_keep _ _ Ep), (get_truthy_keep _ _ Ec). reflexivity.
Qed.

(** X5: the pay columns of a row the lookup matches are both NULL, or hold
    an amount other than 0 and a currency other than the empty string: a
    stored row with only one of the two set, or with a pay of 0, is matched
    by no filters at all. *)
Theorem matched_pay (db : DB) (board : Z) (filters : Filters) (f : Row.t) :
  In f (all db (Filterset.from_filters_query board filters)) ->
  pay_matchable f.
Proof.
  intros Hin. apply matched_scalar_clauses in Hin.
  destruct Hin as [r [<- Hw]].
  unfold scalar_clauses in Hw. rewrite !forallb_app in Hw.
  apply andb_true_iff in Hw. destruct Hw as [_ Hw].
  apply andb_true_iff in Hw. destruct Hw as [Hpay _].
  unfold pay_matchable.
  destruct (get_truthy (f_pay filters)) as [pay|] eqn:Ep;
    destruct (get_truthy (f_currency filters)) as [currency|] eqn:Ec;
    cbn [forallb] in Hpay;
    apply andb_true_iff in Hpay; destruct Hpay as [Hz Hs];
    apply andb_true_iff in Hs; destruct Hs as [Hs _];
    unfold eval_clause, column_value in Hz, Hs;
    destruct (Row.pay_cash (r_fs r)) as [z|],
             (Row.pay_currency (r_fs r)) as [s|];
    cbn in Hz, Hs; try discriminate Hz; try discriminate Hs; auto.
  apply Z.eqb_eq in Hz. subst z.
  apply get_truthy_some in Ep. destruct Ep as [_ Ep].
  split.
  - intros ->. discriminate Ep.
  - discriminate.
Qed.

Lemma matched_pay_witness : pay_matchable More.paid_row.
Proof.
  apply (matched_pay More.paid_db 1 More.paid_filters More.paid_row).
  left. reflexivity.
Defined.

(** ** The rows of the joins *)

Section JoinedRows.

Variable db : DB.

Lemma kind_eqb_eq (k k' : kind) : kind_eqb k k' = true -> k = k'.
Proof. destruct k, k'; simpl; intros Heq; congruence. Qed.

Lemma join_step_ok (j : join_target) (r r' : JRow) :
  row_ok db r -> In r' (join_step db j r) -> row_ok db r'.
Proof.
  intros [Ha He] Hin. destruct j as [k0|k0]; simpl in Hin.
  - apply in_map_iff in Hin. destruct Hin as [a [<- Hin]].
    apply filter_In in Hin. destruct Hin as [Hin Hid].
    apply Z.eqb_eq in Hid. split; simpl.
    + intros k a'. unfold upd. destruct (kind_eqb k0 k) eqn:Ek.
      * apply kind_eqb_eq in Ek. subst k0. intros Heq. inversion Heq; subst a'.
        auto.
      * apply Ha.
    + exact He.
  - destruct (r_assoc r k0) as [a|] eqn:Eassoc; [|contradiction].
    apply in_map_iff in Hin. destruct Hin as [e [<- Hin]].
    apply filter_In in Hin. destruct Hin as [Hin Hid].
    split; simpl.
    + exact Ha.
    + intros k e'. unfold upd. destruct (kind_eqb k0 k) eqn:Ek.
      * apply kind_eqb_eq in Ek. subst k0. intros Heq. inversion Heq; subst e'.
        destruct (Ha k a Eassoc) as [Hain Hfid].
        unfold related. apply in_flat_map. exists a. split.
        -- apply filter_In. split; [exact Hain|]. apply Z.eqb_eq. exact Hfid.
        -- apply filter_In. split; [exact Hin | exact Hid].
      * apply He.
Qed.

Lemma joined_ok (js : list join_target) (rows : list JRow) :
  (forall r, In r rows -> row_ok db r) ->
  forall r, In r (joined db js rows) -> row_ok db r.
Proof.
  revert rows. induction js as [|j js IH]; intros rows Hrows; simpl.
  - exact Hrows.
  - apply IH. intros r Hin. apply in_flat_map in Hin.
    destruct Hin as [r0 [Hr0 Hin]]. eapply join_step_ok; eauto.
Qed.

Lemma from_rows_ok (q : Query) (r : JRow) : In r (from_rows db q) -> row_ok db r.
Proof.
  unfold from_rows. apply joined_ok. intros r0 Hin.
  apply in_map_iff in Hin. destruct Hin as [f [<- _]].
  split; simpl; intros; discriminate.
Qed.

Lemma join_step_assoc (j : join_target) (k : kind) (r r' : JRow) :
  In r' (join_step db j r) ->
  is_some (r_assoc r k) = true \/ j = AssocTable k ->
  is_some (r_assoc r' k) = true.
Proof.
  intros Hin Hor. destruct j as [k0|k0]; simpl in Hin.
  - apply in_map_iff in Hin. destruct Hin as [a [<- _]]. simpl. unfold upd.
    destruct (kind_eqb k0 k) eqn:Ek; [reflexivity|].
    destruct Hor as [Hs|Heq]; [exact Hs|].
    inversion Heq; subst k0. destruct k; discriminate Ek.
  - destruct (r_assoc r k0); [|contradiction].
    apply in_map_iff in Hin. destruct Hin as [e [<- _]]. simpl.
    destruct Hor as [Hs|Heq]; [exact Hs | discriminate Heq].
Qed.

Lemma joined_assoc_kept (js : list join_target) (k : kind) (rows : list JRow) :
  (forall r, In r rows -> is_some (r_assoc r k) = true) ->
  forall r, In r (joined db js rows) -> is_some (r_assoc r k) = true.
Proof.
  revert rows. induction js as [|j js IH]; intros rows Hrows; simpl.
  - exact Hrows.
  - apply IH. intros r Hin. apply in_flat_map in Hin.
    destruct Hin as [r0 [Hr0 Hin]].
    eapply join_step_assoc; [exact Hin|]. left. apply Hrows, Hr0.
Qed.

(** Once the association table of a kind is joined, every row has an
    association row of that kind. *)
Lemma joined_assoc_some (js : list join_target) (k : kind) (rows : list JRow) :
  In (AssocTable k) js ->
  forall r, In r (joined db js rows) -> is_some (r_assoc r k) = true.
Proof.
  revert rows. induction js as [|j js IH]; intros rows; simpl; [contradiction|].
  intros [Heq|Hin].
  - subst j. apply joined_assoc_kept. intros r Hr.
    apply in_flat_map in Hr. destruct Hr as [r0 [_ Hr]].
    eapply join_step_assoc; [exact Hr|]. right. reflexivity.
  - apply IH, Hin.
Qed.

End JoinedRows.

(** ** A many-to-many criterion that is supplied *)

Section Supplied.

Lemma m2m_step_kept k names q :
  incl (q_joins q) (q_joins (m2m_step k names q))
  /\ incl (q_having q) (q_having (m2m_step k names q))
  /\ (q_group_by q <> [] -> q_group_by (m2m_step k names q) <> []).
Proof.
  unfold m2m_step. destruct (get_truthy names); simpl.
  - split; [|split].
    + intros j Hj. apply in_or_app. left. apply in_or_app. left. exact Hj.
    + intros h Hh. apply in_or_app. left. exact Hh.
    + intros _. destruct (q_group_by q); discriminate.
  - split; [|split]; auto using incl_refl.
Qed.

Lemma m2m_step_supplied k names ns q :
  get_truthy names = Some ns ->
  In (AssocTable k) (q_joins (m2m_step k names q))
  /\ In (NameIn k ns) (q_where (m2m_step k names q))
  /\ In (CountEq k (List.length ns)) (q_having (m2m_step k names q))
  /\ q_group_by (m2m_step k names q) <> [].
Proof.
  unfold m2m_step. intros ->. simpl. repeat split.
  - apply in_or_app. left. apply in_or_app. right. left. reflexivity.
  - apply in_or_app. right. left. reflexivity.
  - apply in_or_app. right. left. reflexivity.
  - destruct (q_group_by q); discriminate.
Qed.

Lemma supplied_query board filters k names :
  get_truthy (m2m_filter filters k) = Some names ->
  let q := Filterset.from_filters_query board filters in
  In (AssocTable k) (q_joins q)
  /\ In (NameIn k names) (q_where q)
  /\ In (CountEq k (List.length names)) (q_having q)
  /\ q_group_by q <> [].
Proof.
  intros Hs. cbv zeta. rewrite from_filters_query_shape. simpl.
  unfold m2m_query.
  set (q0 := filter_ query [Eq ColBoardId (IntV board)]).
  set (q1 := m2m_step JobType (f_t filters) q0).
  set (q2 := m2m_step JobCategory (f_c filters) q1).
  set (q3 := m2m_step Tag (f_k filters) q2).
  set (q4 := m2m_step Domain (f_d filters) q3).
  pose proof (m2m_step_kept JobCategory (f_c filters) q1) as (J2 & H2 & G2).
  pose proof (m2m_step_kept Tag (f_k filters) q2) as (J3 & H3 & G3).
  pose proof (m2m_step_kept Domain (f_d filters) q3) as (J4 & H4 & G4).
  fold q2 in J2, H2, G2. fold q3 in J3, H3, G3. fold q4 in J4, H4, G4.
  assert (W2 : incl (q_where q1) (q_where q2))
    by (intros c; apply m2m_step_where).
  assert (W3 : incl (q_where q2) (q_where q3))
    by (intros c; apply m2m_step_where).
  assert (W4 : incl (q_where q3) (q_where q4))
    by (intros c; apply m2m_step_where).
  destruct k; simpl in Hs.
  - destruct (m2m_step_supplied JobType _ names q0 Hs) as (A & B & C & D).
    fold q1 in A, B, C, D.
    repeat split; [apply J4, J3, J2, A | apply in_or_app; left; apply W4, W3, W2, B
                  | apply H4, H3, H2, C | apply G4, G3, G2, D].
  - destruct (m2m_step_supplied JobCategory _ names q1 Hs) as (A & B & C & D).
    fold q2 in A, B, C, D.
    repeat split; [apply J4, J3, A | apply in_or_app; left; apply W4, W3, B
                  | apply H4, H3, C | apply G4, G3, D].
  - destruct (m2m_step_supplied Tag _ names q2 Hs) as (A & B & C & D).
    fold q3 in A, B, C, D.
    repeat split; [apply J4, A | apply in_or_app; left; apply W4, B
                  | apply H4, C | apply G4, D].
  - destruct (m2m_step_supplied Domain _ names q3 Hs) as (A & B & C & D).
    fold q4 in A, B, C, D.
    repeat split; [exact A | apply in_or_app; left; exact B
                  | exact C | exact D].
Qed.

End Supplied.

(** X6: when a non-empty list is supplied for a kind, a row the lookup
    matches has at least one association of that kind whose name is in the
    list. *)
Theorem supplied_kind_overlaps (db : DB) (board : Z) (filters : Filters)
        (k : kind) (names : list string) (f : Row.t) :
  get_truthy (m2m_filter filters k) = Some names ->
  In f (all db (Filterset.from_filters_query board filters)) ->
  exists e, In e (related db k (Row.id f)) /\ In (ent_name e) names.
Proof.
  intros Hs Hin.
  destruct (supplied_query board filters k names Hs) as (_ & Hw & _ & _).
  apply all_where in Hin. destruct Hin as [r [Hr <-]].
  unfold where_rows in Hr. apply filter_In in Hr. destruct Hr as [Hr Hall].
  rewrite forallb_forall in Hall. specialize (Hall _ Hw). simpl in Hall.
  destruct (r_entity r k) as [e|] eqn:Ee; [|discriminate].
  exists e. split.
  - apply (proj2 (from_rows_ok db _ r Hr) k e Ee).
  - apply existsb_exists in Hall. destruct Hall as [n [Hn Heq]].
    apply String.eqb_eq in Heq. rewrite Heq. exact Hn.
Qed.

Lemma supplied_kind_overlaps_witness :
  exists e, In e (related Cases.two_types JobType (Row.id (Stored.row 1 "a")))
            /\ In (ent_name e) ["fulltime"].
Proof.
  apply (supplied_kind_overlaps Cases.two_types 1
           (Cases.only_types ["fulltime"]) JobType ["fulltime"]
           (Stored.row 1 "a")).
  - reflexivity.
  - left. reflexivity.
Defined.

(** X7: when lists of different lengths are supplied for two kinds,
    [from_filters] returns [None] whatever is stored: both HAVING clauses
    count the same joined rows of a filterset, and that number cannot equal
    both lengths. *)
Theorem different_lengths_match_nothing (db : DB) (board : Z)
        (filters : Filters) (k1 k2 : kind) (names1 names2 : list string) :
  get_truthy (m2m_filter filters k1) = Some names1 ->
  get_truthy (m2m_filter filters k2) = Some names2 ->
  List.length names1 <> List.length names2 ->
  Filterset.from_filters db board filters = Ok None.
Proof.
  intros Hs1 Hs2 Hne.
  destruct (supplied_query board filters k1 names1 Hs1) as (J1 & _ & C1 & G).
  destruct (supplied_query board filters k2 names2 Hs2) as (J2 & _ & C2 & _).
  unfold Filterset.from_filters, all.
  set (q := Filterset.from_filters_query board filters) in *.
  destruct (q_group_by q) as [|c cs]; [congruence|].
  rewrite filter_none; [reflexivity|].
  intros g Hg. unfold groups in Hg. apply in_map_iff in Hg.
  destruct Hg as [key [<- _]].
  set (g := filter (fun r => row_key r =? key) (where_rows db q)).
  assert (Hsome : forall k, In (AssocTable k) (q_joins q) ->
                            filter (fun r => is_some (r_assoc r k)) g = g).
  { intros k Hk. apply filter_all. intros r Hr.
    unfold g in Hr. apply filter_In in Hr. destruct Hr as [Hr _].
    unfold where_rows in Hr. apply filter_In in Hr. destruct Hr as [Hr _].
    unfold from_rows in Hr. eapply joined_assoc_some; eauto. }
  destruct (forallb (eval_having g) (q_having q)) eqn:E; [|reflexivity].
  rewrite forallb_forall in E.
  pose proof (E _ C1) as E1. pose proof (E _ C2) as E2.
  simpl in E1, E2. rewrite (Hsome k1 J1) in E1. rewrite (Hsome k2 J2) in E2.
  apply Nat.eqb_eq in E1, E2. congruence.
Qed.

Lemma different_lengths_match_nothing_witness :
  Filterset.from_filters Cases.one_by_two 1
    (Cases.types_and_categories ["fulltime"] ["programming"; "design"])
  = Ok None.
Proof.
  apply (different_lengths_match_nothing Cases.one_by_two 1
           (Cases.types_and_categories ["fulltime"] ["programming"; "design"])
           JobType JobCategory ["fulltime"] ["programming"; "design"]).
  - reflexivity.
  - reflexivity.
  - simpl. discriminate.
Defined.

(** ** One many-to-many list alone *)

Section Sole.

Variable db : DB.
Variable board : Z.
Variable filters : Filters.
Variable k : kind.
Variable names : list string.

Hypothesis supplied : get_truthy (m2m_filter filters k) = Some names.
Hypothesis alone :
  forall k', k' <> k -> get_truthy (m2m_filter filters k') = None.

Lemma sole_query :
  let q := Filterset.from_filters_query board filters in
  q_joins q = [AssocTable k; Entity k]
  /\ q_group_by q = [FiltersetId]
  /\ q_having q = [CountEq k (List.length names)]
  /\ In (NameIn k names) (q_where q).
Proof.
  cbv zeta. rewrite from_filters_query_shape. unfold m2m_query, m2m_step.
  pose proof (alone JobType) as H1. pose proof (alone JobCategory) as H2.
  pose proof (alone Tag) as H3. pose proof (alone Domain) as H4.
  pose proof supplied as Hs.
  destruct k; simpl in H1, H2, H3, H4, Hs; rewrite Hs;
    try (rewrite H1 by discriminate); try (rewrite H2 by discriminate);
    try (rewrite H3 by discriminate); try (rewrite H4 by discriminate);
    simpl; repeat split; auto 10.
Qed.

(** The joined rows of a filterset that pass WHERE are no more than its
    entities whose name is in the list. *)
Lemma matched_rows_le (q : Query) (f : Row.t) :
  q_joins q = [AssocTable k; Entity k] ->
  In (NameIn k names) (q_where q) ->
  (List.length (row_rows db q f)
   <= List.length (filter (fun e => existsb (String.eqb (ent_name e)) names)
                          (related db k (Row.id f))))%nat.
Proof.
  intros Hj Hw. unfold row_rows. rewrite Hj.
  set (p' := fun oe : option Named =>
               match oe with
               | Some e => existsb (String.eqb (ent_name e)) names
               | None => false
               end).
  eapply Nat.le_trans.
  - apply (filter_length_impl _ (fun r => p' (r_entity r k))).
    intros r Hr. rewrite forallb_forall in Hr.
    apply (Hr (NameIn k names) Hw).
  - rewrite <- (length_map (fun r => r_entity r k)).
    rewrite <- filter_map_swap, joined_related, filter_map_swap.
    rewrite length_map. apply Nat.le_refl.
Qed.

End Sole.

(** X8: when a list is supplied for one kind only, every name of the list
    is the name of an entity associated with the row the lookup matches:
    the stored set contains the supplied one (names of the entities being
    unique and the association table keyed by its pair). *)
Theorem sole_kind_all_names_associated
        (db : DB) (board : Z) (filters : Filters) (k : kind)
        (names : list string) (f : Row.t) :
  NoDup (map Row.id (filterset_table db)) ->
  NoDup (map ent_name (entity_table db k)) ->
  NoDup (assoc_table db k) ->
  get_truthy (m2m_filter filters k) = Some names ->
  (forall k', k' <> k -> get_truthy (m2m_filter filters k') = None) ->
  In f (all db (Filterset.from_filters_query board filters)) ->
  incl names (map ent_name (related db k (Row.id f))).
Proof.
  intros Hid Hnames Hkey Hs Halone Hin.
  destruct (sole_query board filters k names Hs Halone) as (Hj & Hg & Hh & Hw).
  rewrite (all_matches db _ Hid (from_filters_query_grouped board filters)) in Hin.
  apply filter_In in Hin. destruct Hin as [_ Hm].
  unfold matches in Hm. rewrite Hg, Hh in Hm.
  apply andb_true_iff in Hm. destruct Hm as [_ Hm].
  cbn [forallb eval_having] in Hm. rewrite andb_true_r in Hm.
  apply Nat.eqb_eq in Hm.
  pose proof (filter_length_le (fun r => is_some (r_assoc r k))
                (row_rows db (Filterset.from_filters_query board filters) f))
    as Hle1.
  pose proof (matched_rows_le db k names _ f Hj Hw) as Hle2.
  set (L := filter (fun e => existsb (String.eqb (ent_name e)) names)
                   (related db k (Row.id f))) in *.
  assert (Hnd : NoDup (map ent_name L)).
  { apply NoDup_map_filter, related_names_NoDup; assumption. }
  assert (Hincl : incl (map ent_name L) names).
  { intros n Hn. apply in_map_iff in Hn. destruct Hn as [e [<- He]].
    apply filter_In in He. destruct He as [_ He].
    apply existsb_exists in He. destruct He as [n [Hn E]].
    apply String.eqb_eq in E. rewrite E. exact Hn. }
  assert (Hlen : (List.length names <= List.length (map ent_name L))%nat).
  { rewrite length_map. lia. }
  pose proof (NoDup_length_incl Hnd Hlen Hincl) as Hback.
  intros n Hn. apply Hback in Hn. apply in_map_iff in Hn.
  destruct Hn as [e [<- He]]. apply filter_In in He.
  apply in_map. tauto.
Qed.

Lemma sole_kind_all_names_associated_witness :
  incl ["fulltime"]
       (map ent_name (related Cases.two_types JobType (Row.id (Stored.row 1 "a")))).
Proof.
  apply (sole_kind_all_names_associated Cases.two_types 1
           (Cases.only_types ["fulltime"]) JobType ["fulltime"]
           (Stored.row 1 "a")).
  - simpl. constructor; [intros [] | constructor].
  - simpl. constructor.
    + intros [H|[]]. discriminate H.
    + constructor; [intros [] | constructor].
  - simpl. constructor.
    + intros [H|[]]. discriminate H.
    + constructor; [intros [] | constructor].
  - reflexivity.
  - intros k' Hne. destruct k'; [exfalso; apply Hne|..]; reflexivity.
  - left. reflexivity.
Defined.

(** ** A filterset without associations and filters that ask for it *)

Section BareSelected.



Lemma bare_query (board : Z) (filters : Filters) :
  (forall k, get_truthy (m2m_filter filters k) = None) ->
  q_joins (Filterset.from_filters_query board filters) = []
  /\ q_group_by (Filterset.from_filters_query board filters) = []
  /\ q_where (Filterset.from_filters_query board filters)
     = [Eq ColBoardId (IntV board); NotExistsAssoc JobType;
        NotExistsAssoc JobCategory; NotExistsAssoc Tag; NotExistsAssoc Domain]
       ++ scalar_clauses filters.
Proof.
  intros Hnone. rewrite from_filters_query_shape.
  unfold m2m_query, m2m_step.
  pose proof (Hnone JobType) as H1. pose proof (Hnone JobCategory) as H2.
  pose proof (Hnone Tag) as H3. pose proof (Hnone Domain) as H4.
  simpl in H1, H2, H3, H4. rewrite H1, H2, H3, H4. simpl. auto.
Qed.

Lemma scalar_agree_passes (db : DB) (filters : Filters) (f : Row.t) :
  scalar_agree filters f ->
  forallb (eval_clause db (base_row f)) (scalar_clauses filters) = true.
Proof.
  intros (Hl & He & Hr & Hpay & Hq). unfold scalar_clauses.
  rewrite !forallb_app. cbn [forallb].
  repeat (apply andb_true_iff; split); try reflexivity.
  - destruct (get_truthy (f_l filters)) as [l|];
      cbn [eval_clause column_value base_row r_fs sql_eq sql_is];
      rewrite Hl; apply list_eqb_eq; reflexivity.
  - destruct (f_equity filters) as [[|]|];
      unfold get_truthy, truthy, truthy_option, truthy_bool in *;
      cbn [eval_clause column_value base_row r_fs sql_is];
      rewrite He; reflexivity.
  - destruct (get_truthy (f_pay filters)) as [pay|],
             (get_truthy (f_currency filters)) as [currency|];
      cbn [forallb eval_clause column_value base_row r_fs].
    + destruct Hpay as [Hp [c [Hc His]]]. rewrite Hp, Hc.
      cbn [sql_eq sql_is]. unfold char3_is in His. rewrite His.
      rewrite Z.eqb_refl, String.eqb_refl. reflexivity.
    + destruct Hpay as [Hp Hc]. rewrite Hp, Hc. reflexivity.
    + destruct Hpay as [Hp Hc]. rewrite Hp, Hc. reflexivity.
    + destruct Hpay as [Hp Hc]. rewrite Hp, Hc. reflexivity.
  - destruct (get_truthy (f_q filters)) as [q|];
      cbn [eval_clause column_value base_row r_fs sql_eq sql_is];
      rewrite Hq; apply String.eqb_refl.
  - destruct (f_anywhere filters) as [[|]|];
      unfold get_truthy, truthy, truthy_option, truthy_bool in *;
      cbn [eval_clause column_value base_row r_fs sql_is];
      rewrite Hr; reflexivity.
Qed.

(** A stored row without associations is among the rows the lookup
    selects when no many-to-many list is supplied and the filters ask for
    its columns. *)
Lemma bare_selected (db : DB) (board : Z) (filters : Filters) (f : Row.t) :
  In f (filterset_table db) ->
  no_associations db f ->
  Row.board_id f = board ->
  (forall k, get_truthy (m2m_filter filters k) = None) ->
  scalar_agree filters f ->
  In f (all db (Filterset.from_filters_query board filters)).
Proof.
  intros Hin Hbare Hboard Hnone Hagree.
  destruct (bare_query board filters Hnone) as (Hj & Hg & Hw).
  unfold all. rewrite Hg. apply in_map_iff. exists (base_row f).
  split; [reflexivity|]. unfold where_rows, from_rows. rewrite Hj. simpl.
  apply filter_In. split; [apply in_map; exact Hin|].
  rewrite Hw, forallb_app. apply andb_true_iff. split.
  - cbn [forallb eval_clause column_value base_row r_fs sql_eq sql_is].
    rewrite Hboard, Z.eqb_refl.
    rewrite !(proj2 (not_exists_assoc db f _)); [reflexivity|..];
      apply Hbare.
  - apply scalar_agree_passes. exact Hagree.
Qed.

End BareSelected.

(** ** A filterset without associations and its own filters *)

Section OwnFilters.

Variable db : DB.
Variable f : Row.t.

Hypothesis bare : no_associations db f.

Lemma bare_related (k : kind) : related db k (Row.id f) = [].
Proof.
  unfold related. rewrite filter_none; [reflexivity|].
  intros a Ha. apply Z.eqb_neq. intros Heq. apply (bare k a Ha).
  symmetry. exact Heq.
Qed.

Lemma own_agree :
  Sorted Z.le (Row.geonameids f) ->
  pay_matchable f ->
  scalar_agree (Filterset.to_filters (load db f)) f.
Proof.
  intros Hsorted Hpay. unfold scalar_agree, pay_matchable in *.
  cbn [Filterset.to_filters load f_l f_equity f_pay f_currency f_q f_anywhere
       Filterset.geonameids Filterset.equity Filterset.pay_cash
       Filterset.pay_currency Filterset.keywords Filterset.remote_location].
  apply sorted_of_sorted in Hsorted.
  split; [|split; [|split; [|split]]].
  - destruct (Row.geonameids f) as [|g gs] eqn:Eg; [reflexivity|].
    cbn [get_truthy truthy truthy_list]. symmetry. exact Hsorted.
  - destruct (Row.equity f); reflexivity.
  - destruct (Row.remote_location f); reflexivity.
  - destruct (Row.pay_cash f) as [pay|], (Row.pay_currency f) as [currency|];
      try contradiction; [|split; reflexivity].
    destruct Hpay as [Hp _]. cbn [option_map].
    assert (Tp : get_truthy (Some pay) = Some pay).
    { unfold get_truthy, truthy, truthy_int.
      destruct (pay =? 0) eqn:E; [apply Z.eqb_eq in E; contradiction|].
      reflexivity. }
    rewrite Tp.
    change (get_truthy (Some (char3_string currency)))
      with (Some (char3_string currency)).
    split; [reflexivity|]. exists currency. split; reflexivity.
  - destruct (Row.keywords f) as [|c kw] eqn:Ek; reflexivity.
Qed.

Lemma own_absent (k : kind) :
  get_truthy (m2m_filter (Filterset.to_filters (load db f)) k) = None.
Proof.
  destruct k;
    cbn [m2m_filter Filterset.to_filters load f_t f_c f_k f_d Filterset.types
         Filterset.categories Filterset.tags Filterset.domains];
    rewrite bare_related; reflexivity.
Qed.

End OwnFilters.

(** X9: a stored filterset without associations, whose geonameids are in
    ascending order and whose pay columns are both NULL or both set (the
    amount not 0, the currency not empty), is matched by its own
    [to_filters()]: the lookup on its board returns it, or raises
    [MultipleResultsFound] when another row matches too; it never returns
    [None] or another row. *)
Theorem own_filters_found (db : DB) (f : Row.t) :
  In f (filterset_table db) ->
  no_associations db f ->
  Sorted Z.le (Row.geonameids f) ->
  pay_matchable f ->
  Filterset.from_filters db (Row.board_id f)
    (Filterset.to_filters (load db f)) = Ok (Some f)
  \/ Filterset.from_filters db (Row.board_id f)
       (Filterset.to_filters (load db f)) = Raise MultipleResultsFound.
Proof.
  intros Hin Hbare Hsorted Hpay.
  assert (Hall : In f (all db (Filterset.from_filters_query (Row.board_id f)
                                 (Filterset.to_filters (load db f))))).
  { apply bare_selected; auto.
    - apply own_absent. exact Hbare.
    - apply own_agree; assumption. }
  unfold Filterset.from_filters, one_or_none.
  destruct (all db _) as [|x [|y l]].
  - contradiction.
  - left. destruct Hall as [->|[]]. reflexivity.
  - right. reflexivity.
Qed.

Lemma own_filters_found_witness :
  Filterset.from_filters More.paid_db 1
    (Filterset.to_filters (load More.paid_db More.paid_row))
  = Ok (Some More.paid_row)
  \/ Filterset.from_filters More.paid_db 1
       (Filterset.to_filters (load More.paid_db More.paid_row))
     = Raise MultipleResultsFound.
Proof.
  apply (own_filters_found More.paid_db More.paid_row).
  - left. reflexivity.
  - intros k a Ha. destruct k; contradiction.
  - constructor.
  - simpl. split; discriminate.
Defined.

(** ** More on the pre-save hook *)

(** X10: the hook accepts any target on a board that has no filterset
    stored. *)
Theorem hook_accepts_on_empty_board (db : DB) (target : Filterset.t) :
  (forall f, In f (filterset_table db) ->
             Row.board_id f <> Filterset.board target) ->
  snd (_format_and_validate db target) = Ok tt.
Proof.
  intros Hnone. unfold _format_and_validate.
  set (t' := if truthy (Filterset.geonameids target) then _ else target).
  assert (Hb : Filterset.board t' = Filterset.board target).
  { unfold t'. destruct (truthy _); reflexivity. }
  assert (Hempty : all db (Filterset.from_filters_query (Filterset.board t')
                             (Filterset.to_filters t')) = []).
  { destruct (all db _) as [|x l] eqn:E; [reflexivity|]. exfalso.
    assert (Hx : In x (all db (Filterset.from_filters_query
                                 (Filterset.board t')
                                 (Filterset.to_filters t')))).
    { rewrite E. left. reflexivity. }
    apply (Hnone x).
    - eapply all_stored. exact Hx.
    - rewrite <- Hb. eapply matched_board. exact Hx. }
  unfold Filterset.from_filters. rewrite Hempty. reflexivity.
Qed.

Lemma hook_accepts_on_empty_board_witness :
  snd (_format_and_validate Sample.empty_db (Cases.new_two_by_two "a"))
  = Ok tt.
Proof.
  apply (hook_accepts_on_empty_board Sample.empty_db
           (Cases.new_two_by_two "a")).
  intros f [].
Defined.

(** X11: the hook formats a target once: run again on the target it
    returned, against any database, it returns that target unchanged. *)
Theorem hook_formats_once (db db' : DB) (target : Filterset.t) :
  fst (_format_and_validate db' (fst (_format_and_validate db target)))
  = fst (_format_and_validate db target).
Proof.
  rewrite !hook_target.
  destruct (truthy (Filterset.geonameids target)) eqn:E.
  - cbn [Filterset.set_geonameids Filterset.geonameids].
    rewrite (sorted_nonempty _ E), sorted_idempotent. reflexivity.
  - rewrite E. reflexivity.
Qed.

(** ** Location names *)

Section LocationNames.

Lemma append_names_some (d : list (Z * string)) (gs : list Z)
      (names : list string) :
  append_names d gs = Some names
  <-> Forall2 (fun g nm => dict_name d g = Some nm) gs names.
Proof.
  revert names. induction gs as [|g gs IH]; intros names; simpl.
  - split.
    + intros Heq. inversion Heq. constructor.
    + intros HF. inversion HF. reflexivity.
  - destruct (dict_name d g) as [nm|] eqn:Eg.
    + destruct (append_names d gs) as [ns|] eqn:Ea.
      * split.
        -- intros Heq. inversion Heq; subst names. constructor; [exact Eg|].
           apply IH. reflexivity.
        -- intros HF. inversion HF as [|? nm' ? ns' Hg Hrest]; subst.
           apply IH in Hrest. inversion Hrest; subst ns'. congruence.
      * split; [discriminate|].
        intros HF. inversion HF as [|? nm' ? ns' Hg Hrest]; subst.
        apply IH in Hrest. discriminate Hrest.
    + split; [discriminate|].
      intros HF. inversion HF as [|? nm' ? ns' Hg Hrest]; subst. congruence.
Qed.

Lemma append_names_none (d : list (Z * string)) (gs : list Z) :
  append_names d gs = None
  <-> exists g, In g gs /\ dict_name d g = None.
Proof.
  induction gs as [|g gs IH]; simpl.
  - split; [discriminate|]. intros [g [[] _]].
  - destruct (dict_name d g) as [nm|] eqn:Eg.
    + destruct (append_names d gs) as [ns|] eqn:Ea.
      * split; [discriminate|].
        intros [g' [[<-|Hin] Hg']]; [congruence|].
        pose proof (proj2 IH (ex_intro _ g' (conj Hin Hg'))) as Hbad.
        discriminate Hbad.
      * split; [|reflexivity]. intros _.
        destruct (proj1 IH eq_refl) as [g' [Hin Hg']]. eauto.
    + split; [|reflexivity]. intros _. exists g. auto.
Qed.

End LocationNames.

(** X13: with [translate_geonameids=True] the location names are one per
    geonameid of the filterset, in the filterset's order, each the name
    the service gives for that id: the other places in the service's answer
    are left out. When the answer lacks one of the ids the call fails (the
    [KeyError]); with [translate_geonameids=False] no name is collected. *)
Theorem location_names_follow_geonameids
        (location_geodata : list Z -> list (Z * string)) (self : Filterset.t) :
  (forall names,
      location_names location_geodata self true = Some names <->
      Forall2 (fun g nm =>
                 dict_name (location_geodata (Filterset.geonameids self)) g
                 = Some nm)
              (Filterset.geonameids self) names)
  /\ (location_names location_geodata self true = None <->
      exists g, In g (Filterset.geonameids self)
                /\ dict_name (location_geodata (Filterset.geonameids self)) g
                   = None)
  /\ location_names location_geodata self false = Some [].
Proof.
  unfold location_names. cbn [andb].
  destruct (Filterset.geonameids self) as [|g gs] eqn:Eg.
  - cbn. split; [|split; [|reflexivity]].
    + intros names. split.
      * intros Heq. inversion Heq. constructor.
      * intros HF. inversion HF. reflexivity.
    + split; [discriminate|]. intros [g [[] _]].
  - cbn [truthy truthy_list]. split; [|split; [|reflexivity]].
    + intros names. apply append_names_some.
    + apply append_names_none.
Qed.

Lemma location_names_follow_geonameids_witness :
  location_names More.geodata
    (Filterset.set_geonameids (Sample.blank None "south") [1264527; 1277333])
    true
  = Some ["Chennai"; "Bangalore"].
Proof.
  apply (proj1 (location_names_follow_geonameids More.geodata
                  (Filterset.set_geonameids (Sample.blank None "south")
                     [1264527; 1277333]))).
  repeat constructor.
Defined.

(** ** Running the migration twice *)

Section MigrationTwice.
Import Alembic.

Lemma has_index_dropped (l : list Index) (name : string) :
  existsb (fun i => String.eqb (index_name i) name)
          (filter (fun i => negb (String.eqb (index_name i) name)) l) = false.
Proof.
  induction l as [|i l IH]; simpl; [reflexivity|].
  destruct (String.eqb (index_name i) name) eqn:E; simpl; [exact IH|].
  rewrite E, IH. reflexivity.
Qed.

End MigrationTwice.

(** X14: neither step of the migration can be run twice in a row: after a
    successful [upgrade] a second [upgrade] raises (the index exists), and
    after a successful [downgrade] a second [downgrade] raises (the index
    is gone). *)
Theorem migration_steps_not_repeatable (s s' : Alembic.Schema) :
  (Alembic.upgrade s = Ok s' ->
   exists msg, Alembic.upgrade s' = Raise (ProgrammingError msg))
  /\ (Alembic.downgrade s = Ok s' ->
      exists msg, Alembic.downgrade s' = Raise (ProgrammingError msg)).
Proof.
  split.
  - unfold Alembic.upgrade, Alembic.create_index, Alembic.f.
    destruct (Alembic.has_columns s "jobpost" ["datetime"]) eqn:Ec;
      [|discriminate].
    destruct (Alembic.has_index s "ix_jobpost_datetime") eqn:Ei;
      [discriminate|].
    cbn [negb]. intros Heq. inversion Heq as [Hs']; clear Heq.
    assert (Hc' : Alembic.has_columns s' "jobpost" ["datetime"] = true).
    { rewrite <- Hs'. exact Ec. }
    assert (Hi' : Alembic.has_index s' "ix_jobpost_datetime" = true).
    { rewrite <- Hs'. unfold Alembic.has_index. cbn [Alembic.indexes].
      rewrite existsb_app. simpl. apply orb_true_r. }
    rewrite Hs', Hc', Hi'. cbn [negb]. eexists. reflexivity.
  - unfold Alembic.downgrade, Alembic.drop_index, Alembic.f.
    destruct (Alembic.has_index s "ix_jobpost_datetime") eqn:Ei;
      [|discriminate].
    intros Heq. inversion Heq; subst s'; clear Heq.
    unfold Alembic.has_index. simpl. rewrite has_index_dropped.
    eexists. reflexivity.
Qed.

Lemma migration_steps_not_repeatable_witness :
  exists s',
    Alembic.upgrade
      {| Alembic.tables :=
           [{| Alembic.tbl_name := "jobpost";
               Alembic.tbl_columns := ["id"; "datetime"] |}];
         Alembic.indexes := [] |} = Ok s'
    /\ exists msg, Alembic.upgrade s' = Raise (ProgrammingError msg).
Proof.
  eexists. split.
  - reflexivity.
  - apply (proj1 (migration_steps_not_repeatable
                    {| Alembic.tables :=
                         [{| Alembic.tbl_name := "jobpost";
                             Alembic.tbl_columns := ["id"; "datetime"] |}];
                       Alembic.indexes := [] |} _)).
    reflexivity.
Defined.

(** ** Other boards *)

Section OtherBoards.

Variable db : DB.
Variable board : Z.
Variable filters : Filters.

Lemma matches_off_board (f : Row.t) :
  Row.board_id f <> board ->
  matches db (Filterset.from_filters_query board filters) f = false.
Proof.
  intros Hne. unfold matches, row_rows. rewrite filter_none; [reflexivity|].
  intros r Hr. apply joined_fs in Hr. destruct Hr as [r0 [[<-|[]] Hfs]].
  simpl in Hfs.
  destruct (forallb _ _) eqn:E; [|reflexivity]. exfalso.
  rewrite forallb_forall in E.
  specialize (E _ (board_clause board filters)). simpl in E.
  apply Z.eqb_eq in E. rewrite Hfs in E. contradiction.
Qed.

Lemma filter_within {A} (m p : A -> bool) (l : list A) :
  (forall x, m x = true -> p x = true) ->
  filter m (filter p l) = filter m l.
Proof.
  intros Himp. induction l as [|x l IH]; simpl; [reflexivity|].
  destruct (p x) eqn:Ep; simpl; rewrite IH; [reflexivity|].
  destruct (m x) eqn:Em; [|reflexivity].
  apply Himp in Em. congruence.
Qed.

End OtherBoards.

(** X15: the filtersets of other boards play no part in the lookup: on the
    database and on the database cut down to the rows of the board,
    [from_filters] gives the same answer (the same row, [None], or the same
    error). *)
Theorem other_boards_irrelevant (db : DB) (board : Z) (filters : Filters) :
  NoDup (map Row.id (filterset_table db)) ->
  Filterset.from_filters db board filters
  = Filterset.from_filters (on_board db board) board filters.
Proof.
  intros Hid. unfold Filterset.from_filters. f_equal.
  rewrite (all_matches db _ Hid (from_filters_query_grouped board filters)).
  rewrite (all_matches (on_board db board) _
             (NoDup_map_filter Row.id _ _ Hid)
             (from_filters_query_grouped board filters)).
  change (filterset_table (on_board db board))
    with (filter (fun f => Row.board_id f =? board) (filterset_table db)).
  symmetry. apply filter_within.
  intros f Hm. apply Z.eqb_eq.
  destruct (Z.eq_dec (Row.board_id f) board) as [Heq|Hne]; [exact Heq|].
  change (matches db (Filterset.from_filters_query board filters) f = true)
    in Hm.
  rewrite (matches_off_board db board filters f Hne) in Hm. discriminate Hm.
Qed.

Lemma other_boards_irrelevant_witness :
  Filterset.from_filters More.two_boards 1 no_filters
  = Filterset.from_filters (on_board More.two_boards 1) 1 no_filters.
Proof.
  apply (other_boards_irrelevant More.two_boards 1 no_filters).
  simpl. constructor.
  - intros [H|[]]. discriminate H.
  - constructor; [intros [] | constructor].
Defined.

(** ** Saving the same bare criteria twice *)

Section Twice.








End Twice.



(** ** Lookup by name after a save *)



(** ** An update that changes nothing *)

(** The sample state is what two saves write on an empty database. *)
Lemma two_and_one_saved :
  exists db1 db2,
    save Sample.empty_db (Cases.new_two_by_two "a") = Ok db1
    /\ save db1 (Cases.new_two_by_one "c") = Ok db2
    /\ filterset_table db2 = filterset_table Cases.two_and_one
    /\ forall k, assoc_table db2 k = assoc_table Cases.two_and_one k.
Proof.
  eexists. eexists. split; [reflexivity|]. split; [reflexivity|].
  split; [reflexivity|]. intros []; reflexivity.
Qed.

(** C10 at the failing input: the stored filterset with two job types and
    two categories is saved again with nothing changed. The lookup for its
    own criteria does not find it (2 * 2 joined rows against a length of
    2) and returns the other filterset, which has the same job types and
    one of the categories (2 * 1 joined rows): the hook raises the
    validation error. *)
Example unchanged_update_rejected :
  Filterset.to_filters (load Cases.two_and_one (Stored.row 1 "a"))
  = Filterset.to_filters (Cases.new_two_by_two "a")
  /\ Filterset.from_filters Cases.two_and_one 1
       (Filterset.to_filters (load Cases.two_and_one (Stored.row 1 "a")))
     = Ok (Some (Stored.row 2 "c"))
  /\ snd (_format_and_validate Cases.two_and_one
            (load Cases.two_and_one (Stored.row 1 "a")))
     = Raise (ValueError collision_message)
  /\ save Cases.two_and_one (load Cases.two_and_one (Stored.row 1 "a"))
     = Raise (ValueError collision_message).
Proof. repeat split. Qed.
